(** * cloudify.workflows.workflow_context: routing, merging and envelopes

    A shallow embedding of [cloudify/workflows/workflow_context.py]:
    the node graph built by [CloudifyWorkflowContext.__init__], the
    relationship and node wrappers, the operation router
    [_execute_operation], the parameter merger [_safe_update] and the
    envelope builder [_build_cloudify_context].

    Python dictionaries with string keys are [gmap string _]; the plan's
    raw node dictionaries live in a store addressed by their position in
    [ctx['plan']['nodes']], and the wrappers refer to them by address, so
    that an in-place update of a raw dictionary is visible through every
    wrapper that shares it. *)

From stdpp Require Import gmap strings list fin_maps.

Local Set Warnings "-register-all,-clear-no-such-hyp".
Local Open Scope string_scope.

(** ** Values carried by property maps, kwargs and envelopes *)

Inductive value :=
  | VNone
  | VBool (b : bool)
  | VInt (z : Z)
  | VStr (s : string)
  | VList (l : list value)
  | VDict (d : gmap string value).

Abbreviation dict := (gmap string value).

(** [x.get(...)] on an identifier-valued key: Python [None] when absent. *)
Definition of_opt (o : option string) : value :=
  match o with
  | Some s => VStr s
  | None => VNone
  end.

(** ** Exceptions and results *)

Inductive exn :=
  | KeyError (key : string)
  | AttributeError (attr : string)
  | RuntimeError (msg : string)
  | TypeError (msg : string)
  | ValueError (msg : string)
  | InvalidReference
  | NotModelled.
(* [InvalidReference] is not a Python exception: it marks an address that
   is not in the store, which the references built by [__init__] never are.
   [NotModelled] is not one either: it marks a [dict.update] whose result
   is not a map with string keys, or depends on the order in which a
   dictionary yields its keys; from there on the model does not follow the
   code. *)

Inductive res (A : Type) :=
  | Ok (a : A)
  | Raise (e : exn).
Arguments Ok {A} a.
Arguments Raise {A} e.

Definition res_bind {A B} (r : res A) (k : A → res B) : res B :=
  match r with
  | Ok a => k a
  | Raise e => Raise e
  end.

(** [d[key]] *)
Definition getitem {A} (d : gmap string A) (key : string) : res A :=
  match d !! key with
  | Some a => Ok a
  | None => Raise (KeyError key)
  end.

(** [raw[key]] for a key of a raw node or operation held in a record field *)
Definition getfield {A} (field : option A) (key : string) : res A :=
  match field with
  | Some a => Ok a
  | None => Raise (KeyError key)
  end.

(** ** The parameter merger: [_safe_update] *)

Definition cloudify_runtime : string := "cloudify_runtime".

(** One element of a sequence given to [dict.update]: it is turned into a
    sequence, which must have two items, a key and a value. A list of two
    items is such a pair, if its key can be hashed; a string of two
    characters is the pair of its characters; a dictionary is the sequence
    of its keys. A key that can be hashed and is not a string would give a
    map with a key that is not a string, which is [NotModelled]. *)
Definition dict_update_pair (acc : res dict) (item : value) : res dict :=
  res_bind acc (λ t,
    match item with
    | VList [k; v] =>
        match k with
        | VStr s => Ok (<[s := v]> t)
        | VList _ | VDict _ => Raise (TypeError "unhashable type")
        | _ => Raise NotModelled
        end
    | VStr (String a (String b EmptyString)) =>
        Ok (<[String a EmptyString := VStr (String b EmptyString)]> t)
    | VDict d =>
        if bool_decide (size d = 2) then Raise NotModelled
        else Raise (ValueError "dictionary update sequence element has length other than 2")
    | VList _ | VStr _ =>
        Raise (ValueError "dictionary update sequence element has length other than 2")
    | _ =>
        Raise (TypeError "cannot convert dictionary update sequence element to a sequence")
    end).

(** [target.update(v)]: only a dictionary has the method. The entries of a
    mapping [v] override those of [target]; any other [v] is iterated as a
    sequence of key/value pairs, added one after the other: the empty
    string and the empty list add nothing, the characters of a non-empty
    string are not pairs, and [None], a boolean or a number cannot be
    iterated. *)
Definition dict_update (target v : value) : res value :=
  match target with
  | VDict t =>
      match v with
      | VDict d => Ok (VDict (d ∪ t))
      | VList l =>
          res_bind (foldl dict_update_pair (Ok t) l) (λ t', Ok (VDict t'))
      | VStr s =>
          if decide (s = "") then Ok (VDict t)
          else Raise (ValueError "dictionary update sequence element has length other than 2")
      | _ => Raise (TypeError "object is not iterable")
      end
  | _ => Raise (AttributeError "update")
  end.

(** One iteration of the loop body, lines 268-276. *)
Definition _safe_update_step (acc : res dict) (item : string * value) : res dict :=
  res_bind acc (λ result,
    let '(key, v) := item in
    if decide (key = cloudify_runtime) then
      let result :=
        match result !! key with
        | None => <[key := VDict ∅]> result
        | Some _ => result
        end in
      res_bind (dict_update (default VNone (result !! key)) v) (λ merged,
        Ok (<[key := merged]> result))
    else
      match result !! key with
      | Some _ => Raise (RuntimeError ("Target map already contains key: " ++ key))
      | None => Ok (<[key := v]> result)
      end).

(** [result = copy.deepcopy(dict2)]: values are immutable here, so the copy
    is the value itself; then the loop over [dict1.items()]. *)
Definition _safe_update (dict1 dict2 : dict) : res dict :=
  foldl _safe_update_step (Ok dict2) (map_to_list dict1).

(** ** The topology as parsed: raw nodes, relationships and operations

    A key that may be absent from a raw dictionary is an [option] field:
    [None] is "the key is not there" ([d[key]] raises [KeyError],
    [d.get(key)] gives Python [None]). *)

Record op_struct := {
  op_plugin : option string;          (* op_struct['plugin'] *)
  op_operation : option string;       (* op_struct['operation'] *)
  op_properties : option dict         (* op_struct.get('properties') *)
}.

Abbreviation operations_table := (gmap string op_struct).

Record raw_relationship := {
  rel_target_id : option string;
  rel_source_operations : option operations_table;
  rel_target_operations : option operations_table
}.

Record raw_node := {
  raw_id : option string;
  raw_name : option string;
  raw_type : option string;
  raw_properties : option dict;
  raw_plugins : option (gmap string dict);
  raw_operations : option operations_table;
  raw_relationships : option (list raw_relationship);
  raw_host_id : option string
}.

(** The workflow-scoped identifiers of the raw context [ctx]. *)
Record raw_context := {
  ctx_deployment_id : option string;
  ctx_blueprint_id : option string;
  ctx_execution_id : option string;
  ctx_workflow_id : option string
}.

(** ** The store and the objects that refer to it *)

Definition loc := nat.

(** The raw node dictionaries, in the order of [ctx['plan']['nodes']]. *)
Abbreviation store := (list raw_node).

(** Code that may read or update the store, and may raise. *)
Definition M (A : Type) : Type := store → res A * store.

Definition ret {A} (a : A) : M A := λ h, (Ok a, h).
Definition raise {A} (e : exn) : M A := λ h, (Raise e, h).
Definition bind {A B} (m : M A) (k : A → M B) : M B :=
  λ h, match m h with
       | (Ok a, h') => k a h'
       | (Raise e, h') => (Raise e, h')
       end.
Definition lift {A} (r : res A) : M A := λ h, (r, h).
Definition deref (l : loc) : M raw_node :=
  λ h, match h !! l with
       | Some n => (Ok n, h)
       | None => (Raise InvalidReference, h)
       end.
Definition modify_node (l : loc) (f : raw_node → raw_node) : M unit :=
  λ h, (Ok tt, alter f l h).

Notation "'let*' x ':=' m 'in' k" := (bind m (λ x, k))
  (at level 10, x name, m at level 100, k at level 200, only parsing).
Notation "'let?' x ':=' r 'in' k" := (res_bind r (λ x, k))
  (at level 10, x name, r at level 100, k at level 200, only parsing).

(** What a variable of this module can be bound to. The classes are told
    apart by the attributes they have: asking an object for an attribute
    of another class raises [AttributeError]. *)
Inductive obj :=
  | ONone                              (* None *)
  | OContext                           (* the CloudifyWorkflowContext *)
  | ONode (l : loc)                    (* a CloudifyWorkflowNode, [_node] at [l] *)
  | ORaw (l : loc)                     (* the raw node dictionary at [l] *)
  | ORelationship (l : loc) (j : nat). (* a CloudifyWorkflowRelationship *)

Record CloudifyWorkflowRelationship := {
  rel_ctx : obj;                       (* self.ctx *)
  rel_node : obj;                      (* self.node *)
  _relationship : loc * nat            (* relationship [j] of the raw node at [l] *)
}.

Record CloudifyWorkflowNode := {
  node_ctx : obj;                      (* self.ctx *)
  _node : loc;                         (* self._node *)
  _relationships : list CloudifyWorkflowRelationship
}.

Record CloudifyWorkflowContext := {
  _context : raw_context;
  _nodes : gmap string CloudifyWorkflowNode
}.

(** A reference to an operations table: the dictionary object itself is
    passed around, so a write through it lands in the raw node. *)
Inductive ops_ref :=
  | OpsOfNode (l : loc)                      (* self._node['operations'] *)
  | OpsOfRelationship (l : loc) (j : nat) (source : bool)
  | OpsFresh.                                (* the [{}] default of [.get] *)

(** *** Construction of the graph *)

Definition CloudifyWorkflowRelationship__init__
    (ctx node : obj) (relationship : loc * nat) : CloudifyWorkflowRelationship :=
  {| rel_ctx := ctx; rel_node := node; _relationship := relationship |}.

(** Lines 67-72: each relationship wrapper is given [self], the node
    wrapper, as its [ctx] and the raw node as its [node]. *)
Definition CloudifyWorkflowNode__init__
    (ctx : obj) (l : loc) (node : raw_node) : CloudifyWorkflowNode :=
  {| node_ctx := ctx;
     _node := l;
     _relationships :=
       imap (λ j _, CloudifyWorkflowRelationship__init__ (ONode l) (ORaw l) (l, j))
            (default [] (raw_relationships node)) |}.

(** The dictionary comprehension of lines 128-129, from position [l] on:
    a later node with the same id replaces an earlier one. *)
Fixpoint build_nodes (l : loc) (nodes : list raw_node)
    (acc : gmap string CloudifyWorkflowNode) : res (gmap string CloudifyWorkflowNode) :=
  match nodes with
  | [] => Ok acc
  | node :: rest =>
      res_bind (getfield (raw_id node) "id") (λ k,
        build_nodes (S l) rest (<[k := CloudifyWorkflowNode__init__ OContext l node]> acc))
  end.

Definition CloudifyWorkflowContext__init__
    (ctx : raw_context) (plan_nodes : store) : res CloudifyWorkflowContext :=
  res_bind (build_nodes 0 plan_nodes ∅) (λ nodes,
    Ok {| _context := ctx; _nodes := nodes |}).

(** *** Properties of the context *)

Definition deployment_id (self : CloudifyWorkflowContext) := ctx_deployment_id (_context self).
Definition blueprint_id (self : CloudifyWorkflowContext) := ctx_blueprint_id (_context self).
Definition execution_id (self : CloudifyWorkflowContext) := ctx_execution_id (_context self).
Definition workflow_id (self : CloudifyWorkflowContext) := ctx_workflow_id (_context self).

(** [self._nodes.get(node_id)] *)
Definition get_node (self : CloudifyWorkflowContext) (node_id : string)
    : option CloudifyWorkflowNode :=
  _nodes self !! node_id.

(** *** Attribute access *)

(** [node._node] *)
Definition attr__node (node : obj) : M loc :=
  match node with
  | ONode l => ret l
  | _ => raise (AttributeError "_node")
  end.

(** [node.properties]: [self._node.get('properties', {})] *)
Definition attr_properties (node : obj) : M dict :=
  match node with
  | ONode l => let* n := deref l in ret (default ∅ (raw_properties n))
  | _ => raise (AttributeError "properties")
  end.

(** [node.id]: [self._node.get('id')] *)
Definition attr_id (node : obj) : M value :=
  match node with
  | ONode l => let* n := deref l in ret (of_opt (raw_id n))
  | _ => raise (AttributeError "id")
  end.

(** [node.name]: [self._node.get('name')] *)
Definition attr_name (node : obj) : M value :=
  match node with
  | ONode l => let* n := deref l in ret (of_opt (raw_name n))
  | _ => raise (AttributeError "name")
  end.

(** The raw relationship dictionary behind a wrapper. *)
Definition deref_relationship (a : loc * nat) : M raw_relationship :=
  let* n := deref a.1 in
  match default [] (raw_relationships n) !! a.2 with
  | Some r => ret r
  | None => raise InvalidReference
  end.

(** [self.target_id]: [self._relationship.get('target_id')] *)
Definition target_id (self : CloudifyWorkflowRelationship) : M (option string) :=
  let* r := deref_relationship (_relationship self) in ret (rel_target_id r).

(** Reading the table behind a reference. *)
Definition read_ops (operations : ops_ref) : M operations_table :=
  match operations with
  | OpsOfNode l =>
      let* n := deref l in
      match raw_operations n with
      | Some t => ret t
      | None => raise InvalidReference
      end
  | OpsOfRelationship l j source =>
      let* r := deref_relationship (l, j) in
      match (if source then rel_source_operations r else rel_target_operations r) with
      | Some t => ret t
      | None => raise InvalidReference
      end
  | OpsFresh => ret ∅
  end.

(** An in-place update of [operations[operation]['properties']]. *)
Definition set_op_properties (operation : string) (props : dict)
    (table : operations_table) : operations_table :=
  alter (λ op, {| op_plugin := op_plugin op;
                  op_operation := op_operation op;
                  op_properties := Some props |}) operation table.

Definition set_node_operations (f : operations_table → operations_table)
    (n : raw_node) : raw_node :=
  {| raw_id := raw_id n; raw_name := raw_name n; raw_type := raw_type n;
     raw_properties := raw_properties n; raw_plugins := raw_plugins n;
     raw_operations := f <$> raw_operations n;
     raw_relationships := raw_relationships n; raw_host_id := raw_host_id n |}.

Definition set_relationship_operations (source : bool)
    (f : operations_table → operations_table) (r : raw_relationship)
    : raw_relationship :=
  {| rel_target_id := rel_target_id r;
     rel_source_operations :=
       if source then f <$> rel_source_operations r else rel_source_operations r;
     rel_target_operations :=
       if source then rel_target_operations r else f <$> rel_target_operations r |}.

Definition set_node_relationship (j : nat) (f : raw_relationship → raw_relationship)
    (n : raw_node) : raw_node :=
  {| raw_id := raw_id n; raw_name := raw_name n; raw_type := raw_type n;
     raw_properties := raw_properties n; raw_plugins := raw_plugins n;
     raw_operations := raw_operations n;
     raw_relationships := alter f j <$> raw_relationships n;
     raw_host_id := raw_host_id n |}.

Definition write_op_properties (operations : ops_ref) (operation : string)
    (props : dict) : M unit :=
  match operations with
  | OpsOfNode l =>
      modify_node l (set_node_operations (set_op_properties operation props))
  | OpsOfRelationship l j source =>
      modify_node l (set_node_relationship j
        (set_relationship_operations source (set_op_properties operation props)))
  | OpsFresh => ret tt
  end.

(** ** Tasks and envelopes *)

(** [celery.subtask(task_name, kwargs=..., queue=..., immutable=True)] *)
Record subtask := {
  subtask_name : string;
  subtask_kwargs : dict;
  subtask_queue : option string;
  subtask_immutable : bool
}.

Inductive WorkflowTask :=
  | NOP
  | RemoteWorkflowTask (task : subtask) (cloudify_context : dict) (task_id : string).

(** Lines 245-262. *)
Definition _build_cloudify_context (self : CloudifyWorkflowContext)
    (task_id : string) (task_queue : option string) (task_name : string)
    (node_context : option dict) : dict :=
  let context : dict :=
    {[ "__cloudify_context" := VStr "0.3";
       "task_id" := VStr task_id;
       "task_name" := VStr task_name;
       "task_target" := of_opt task_queue;
       "blueprint_id" := of_opt (blueprint_id self);
       "deployment_id" := of_opt (deployment_id self);
       "execution_id" := of_opt (execution_id self);
       "workflow_id" := of_opt (workflow_id self) ]} in
  match node_context with
  | Some node_context => node_context ∪ context     (* context.update(node_context) *)
  | None => context
  end.

(** Lines 224-243; [task_id] is the string drawn from [uuid.uuid4()]. *)
Definition execute_task (self : CloudifyWorkflowContext) (task_id : string)
    (task_queue : option string) (task_name : string)
    (kwargs node_context : option dict) : WorkflowTask :=
  let kwargs := default ∅ kwargs in
  let cloudify_context :=
    _build_cloudify_context self task_id task_queue task_name node_context in
  let kwargs := <["__cloudify_context" := VDict cloudify_context]> kwargs in
  let task := {| subtask_name := task_name; subtask_kwargs := kwargs;
                 subtask_queue := task_queue; subtask_immutable := true |} in
  RemoteWorkflowTask task cloudify_context task_id.

(** ** The operation router *)

(** [flag == 'true'] *)
Definition is_true (flag : value) : bool :=
  match flag with
  | VStr s => bool_decide (s = "true")
  | _ => false
  end.

(** Lines 180-184: the queue an operation of [plugin_name] is sent to. *)
Definition select_task_queue (self : CloudifyWorkflowContext)
    (raw_node : raw_node) (plugin_name : string) : res (option string) :=
  let task_queue := Some "cloudify.management" in
  let? plugins := getfield (raw_plugins raw_node) "plugins" in
  let? plugin := getitem plugins plugin_name in
  let? agent_plugin := getitem plugin "agent_plugin" in
  if is_true agent_plugin then
    let? host_id := getfield (raw_host_id raw_node) "host_id" in
    Ok (Some host_id)
  else
    let? manager_plugin := getitem plugin "manager_plugin" in
    if is_true manager_plugin then Ok (deployment_id self)
    else Ok task_queue.

(** What [operation_properties] is bound to in lines 179-194. *)
Inductive properties_ref :=
  | PropsNone                (* None *)
  | PropsOfOperation (d : dict)  (* the dictionary stored in the operation definition *)
  | PropsFresh (d : dict).   (* a dictionary created by this call *)

(** Lines 190-194. *)
Definition resolve_operation_properties (node : obj) (operations : ops_ref)
    (operation : string) (operation_properties : properties_ref) : M dict :=
  let* node_properties := attr_properties node in
  let runtime := default (VDict ∅) (node_properties !! cloudify_runtime) in
  match operation_properties with
  | PropsNone => ret node_properties
  | PropsOfOperation d =>
      let d := <[cloudify_runtime := runtime]> d in
      let* _ := write_op_properties operations operation d in
      ret d
  | PropsFresh d => ret (<[cloudify_runtime := runtime]> d)
  end.

(** Lines 169-222. *)
Definition _execute_operation (self : CloudifyWorkflowContext) (task_id : string)
    (operation : string) (node : obj) (operations : ops_ref)
    (related_node : obj) (kwargs : option dict) : M WorkflowTask :=
  let kwargs := default ∅ kwargs in
  let* l := attr__node node in
  let* table := read_ops operations in
  match table !! operation with
  | None => ret NOP
  | Some op_struct =>
      let* plugin_name := lift (getfield (op_plugin op_struct) "plugin") in
      let* operation_mapping := lift (getfield (op_operation op_struct) "operation") in
      let operation_properties :=
        match op_properties op_struct with
        | Some d => PropsOfOperation d
        | None => PropsNone
        end in
      let* raw_node := deref l in
      let* task_queue := lift (select_task_queue self raw_node plugin_name) in
      let task_name := plugin_name ++ "." ++ operation_mapping in
      let operation_properties :=
        match related_node with
        | ONone => operation_properties
        | _ => PropsFresh ∅
        end in
      let* operation_properties :=
        resolve_operation_properties node operations operation operation_properties in
      let* task_kwargs := lift (_safe_update operation_properties kwargs) in
      let* node_id := attr_id node in
      let task_kwargs := <["__cloudify_id" := node_id]> task_kwargs in
      let context_node_properties := operation_properties in
      let context_capabilities :=
        default (VDict ∅) (operation_properties !! cloudify_runtime) in
      let context_node_properties := delete "__cloudify_id" context_node_properties in
      let context_node_properties := delete cloudify_runtime context_node_properties in
      let* node_name := attr_name node in
      let node_context : dict :=
        {[ "node_id" := node_id;
           "node_name" := node_name;
           "node_properties" := VDict context_node_properties;
           "plugin" := VStr plugin_name;
           "operation" := VStr operation;
           "capabilities" := context_capabilities ]} in
      let* node_context :=
        match related_node with
        | ONone => ret node_context
        | _ =>
            let* related_properties := attr_properties related_node in
            let related_properties := delete cloudify_runtime related_properties in
            let* related_id := attr_id related_node in
            ret (<["related" := VDict {[ "node_id" := related_id;
                                         "node_properties" := VDict related_properties ]}]>
                   node_context)
        end in
      ret (execute_task self task_id task_queue task_name
             (Some task_kwargs) (Some node_context))
  end.

(** ** Entry points of the wrappers *)

(** [self.ctx._execute_operation]: only the workflow context has it. *)
Definition attr__execute_operation (ctx : obj) : M unit :=
  match ctx with
  | OContext => ret tt
  | _ => raise (AttributeError "_execute_operation")
  end.

(** [self.ctx.get_node]: only the workflow context has it. *)
Definition attr_get_node (ctx : obj) : M unit :=
  match ctx with
  | OContext => ret tt
  | _ => raise (AttributeError "get_node")
  end.

(** Lines 93-97; [wf] is the workflow context [OContext] stands for. *)
Definition execute_operation (wf : CloudifyWorkflowContext)
    (self : CloudifyWorkflowNode) (task_id : string) (operation : string)
    (kwargs : option dict) : M WorkflowTask :=
  let* _ := attr__execute_operation (node_ctx self) in
  let* raw := deref (_node self) in
  let* _ := lift (getfield (raw_operations raw) "operations") in
  _execute_operation wf task_id operation (ONode (_node self))
    (OpsOfNode (_node self)) ONone kwargs.

(** Lines 45-62; [me] is the reference to the wrapper itself. *)
Definition execute_relationship_operation (wf : CloudifyWorkflowContext)
    (self : CloudifyWorkflowRelationship) (task_id : string)
    (operation : string) (run_on_source : bool) (kwargs : option dict)
    : M WorkflowTask :=
  let me := ORelationship (_relationship self).1 (_relationship self).2 in
  let* _ := attr_get_node (rel_ctx self) in
  let* tid := target_id self in
  (* node ids are strings: looking up None finds nothing *)
  let target_node :=
    match tid ≫= get_node wf with
    | Some w => ONode (_node w)
    | None => ONone
    end in
  let* r := deref_relationship (_relationship self) in
  let '(l, j) := _relationship self in
  if run_on_source then
    let operations :=
      match rel_source_operations r with
      | Some _ => OpsOfRelationship l j true
      | None => OpsFresh
      end in
    let node := rel_node self in
    let related_node := target_node in
    _execute_operation wf task_id operation node operations related_node kwargs
  else
    let operations :=
      match rel_target_operations r with
      | Some _ => OpsOfRelationship l j false
      | None => OpsFresh
      end in
    let node := target_node in
    let related_node := me in
    _execute_operation wf task_id operation node operations related_node kwargs.

(** ** What a dispatched task is made of

    The values the router computes on its way, named so that the
    statements below can refer to them. *)

(** [node.properties.get('cloudify_runtime', {})] *)
Definition node_runtime (raw : raw_node) : value :=
  default (VDict ∅) (default ∅ (raw_properties raw) !! cloudify_runtime).

(** [operation_properties] as it stands at line 196. *)
Definition base_properties (related_node : obj) (op : op_struct) (raw : raw_node) : dict :=
  match related_node with
  | ONone =>
      match op_properties op with
      | None => default ∅ (raw_properties raw)
      | Some d => <[cloudify_runtime := node_runtime raw]> d
      end
  | _ => {[ cloudify_runtime := node_runtime raw ]}
  end.

(** The store after line 193. *)
Definition store_after (related_node : obj) (op : op_struct) (raw : raw_node)
    (operations : ops_ref) (operation : string) (h : store) : store :=
  match related_node with
  | ONone =>
      match op_properties op with
      | None => h
      | Some d =>
          (write_op_properties operations operation
             (<[cloudify_runtime := node_runtime raw]> d) h).2
      end
  | _ => h
  end.

(** [node_context] as it stands at line 220; [related] is the raw node
    behind [related_node], if there is a related node. *)
Definition node_context_of (operation plugin_name : string) (raw : raw_node)
    (base : dict) (related : option raw_node) : dict :=
  let node_context : dict :=
    {[ "node_id" := of_opt (raw_id raw);
       "node_name" := of_opt (raw_name raw);
       "node_properties" := VDict (delete cloudify_runtime (delete "__cloudify_id" base));
       "plugin" := VStr plugin_name;
       "operation" := VStr operation;
       "capabilities" := default (VDict ∅) (base !! cloudify_runtime) ]} in
  match related with
  | None => node_context
  | Some raw' =>
      <["related" := VDict {[ "node_id" := of_opt (raw_id raw');
                              "node_properties" :=
                                VDict (delete cloudify_runtime
                                         (default ∅ (raw_properties raw'))) ]}]>
        node_context
  end.

(** The raw node behind [related_node]. *)
Definition related_raw (related_node : obj) (h : store) : option (option raw_node) :=
  match related_node with
  | ONone => Some None
  | ONode l => Some <$> h !! l
  | _ => None
  end.

(** What [operation_properties] is bound to when line 190 is reached. *)
Definition properties_ref_of (related_node : obj) (op : op_struct) : properties_ref :=
  match related_node with
  | ONone =>
      match op_properties op with
      | Some d => PropsOfOperation d
      | None => PropsNone
      end
  | _ => PropsFresh ∅
  end.

(** ** A sample deployment, used to exercise the statements below *)

Definition sample_plugins : gmap string dict :=
  {[ "agent_installer" :=
       ({[ "agent_plugin" := VStr "true"; "manager_plugin" := VStr "false" ]} : dict);
     "deployer" :=
       ({[ "agent_plugin" := VStr "false"; "manager_plugin" := VStr "true" ]} : dict);
     "notifier" :=
       ({[ "agent_plugin" := VStr "false"; "manager_plugin" := VStr "false" ]} : dict) ]}.

Definition sample_link : op_struct :=
  {| op_plugin := Some "notifier"; op_operation := Some "rel.link";
     op_properties := None |}.

Definition sample_web : raw_node :=
  {| raw_id := Some "web";
     raw_name := Some "web_server";
     raw_type := Some "server";
     raw_properties :=
       Some {[ "p" := VInt 1;
               "cloudify_runtime" := VDict {[ "ip" := VStr "10.0.0.1" ]} ]};
     raw_plugins := Some sample_plugins;
     raw_operations :=
       Some {[ "start" := {| op_plugin := Some "agent_installer";
                             op_operation := Some "tasks.start";
                             op_properties := None |};
               "configure" := {| op_plugin := Some "deployer";
                                 op_operation := Some "tasks.configure";
                                 op_properties := Some {[ "a" := VInt 1 ]} |};
               "notify" := {| op_plugin := Some "notifier";
                              op_operation := Some "tasks.notify";
                              op_properties := None |} ]};
     raw_relationships :=
       Some [ {| rel_target_id := Some "db";
                 rel_source_operations := Some {[ "link" := sample_link ]};
                 rel_target_operations := Some {[ "unlink" := sample_link ]} |};
              {| rel_target_id := Some "missing";
                 rel_source_operations := Some {[ "link" := sample_link ]};
                 rel_target_operations := None |} ];
     raw_host_id := Some "h1" |}.

Definition sample_db : raw_node :=
  {| raw_id := Some "db";
     raw_name := Some "database";
     raw_type := Some "db";
     raw_properties := Some {[ "q" := VInt 2 ]};
     raw_plugins := Some sample_plugins;
     raw_operations :=
       Some {[ "start" := {| op_plugin := Some "agent_installer";
                             op_operation := Some "tasks.start";
                             op_properties := None |} ]};
     raw_relationships := None;
     raw_host_id := None |}.

Definition sample_plan : store := [sample_web; sample_db].

Definition sample_ctx : raw_context :=
  {| ctx_deployment_id := Some "dep1"; ctx_blueprint_id := Some "bp1";
     ctx_execution_id := Some "ex1"; ctx_workflow_id := Some "install" |}.

Definition sample_wf : CloudifyWorkflowContext :=
  {| _context := sample_ctx;
     _nodes := {[ "web" := CloudifyWorkflowNode__init__ OContext 0 sample_web;
                  "db" := CloudifyWorkflowNode__init__ OContext 1 sample_db ]} |}.

(** ** What the merger returns *)

(** The reserved entry of a property map holds a mapping. *)
Definition runtime_is_mapping (d : dict) : Prop :=
  ∀ v, d !! cloudify_runtime = Some v → ∃ r, v = VDict r.

(** The runtime sub-map of [d], empty when there is none. *)
Definition runtime_of (d : dict) : dict :=
  match d !! cloudify_runtime with
  | Some (VDict r) => r
  | _ => ∅
  end.

(** The union of the two maps; under the reserved key, the union of the two
    sub-maps in which the entries of [dict1] win. *)
Definition merged (dict1 dict2 : dict) : dict :=
  match dict1 !! cloudify_runtime with
  | Some (VDict r1) =>
      <[cloudify_runtime := VDict (r1 ∪ runtime_of dict2)]> (dict1 ∪ dict2)
  | _ => dict1 ∪ dict2
  end.

(** The two maps share no key other than the reserved one. *)
Definition disjoint_apart_from_runtime (dict1 dict2 : dict) : Prop :=
  ∀ k, k ≠ cloudify_runtime → is_Some (dict1 !! k) → dict2 !! k = None.

Definition collision (key : string) : exn :=
  RuntimeError ("Target map already contains key: " ++ key).

(** ** Routing, as seen from the caller *)


(** ** Reading an operation definition out of the graph *)

(** [nodes[l]['operations'][operation].get('properties')] *)
Definition declared_properties (h : store) (l : loc) (operation : string)
    : option dict :=
  match h !! l with
  | Some raw =>
      match raw_operations raw with
      | Some table =>
          match table !! operation with
          | Some op => op_properties op
          | None => None
          end
      | None => None
      end
  | None => None
  end.

(** ** The keys of an envelope *)




(** ** The task a successful call returns *)

(** Lines 196-243 put together: the task built from the resolved plugin,
    queue and base properties, [tk] being the merged kwargs. *)
Definition dispatched_task (self : CloudifyWorkflowContext) (tid : string)
    (operation plugin_name mapping : string) (q : option string)
    (raw : raw_node) (base tk : dict) (related : option raw_node) : WorkflowTask :=
  let name := plugin_name ++ "." ++ mapping in
  let cc :=
    _build_cloudify_context self tid q name
      (Some (node_context_of operation plugin_name raw base related)) in
  RemoteWorkflowTask
    {| subtask_name := name;
       subtask_kwargs := <["__cloudify_context" := VDict cc]>
                           (<["__cloudify_id" := of_opt (raw_id raw)]> tk);
       subtask_queue := q;
       subtask_immutable := true |}
    cc tid.

(** The sample runs used below. *)
Definition sample_runtime : dict := {[ "ip" := VStr "10.0.0.1" ]}.

Definition sample_link_task : WorkflowTask :=
  dispatched_task sample_wf "task-1" "link" "notifier" "rel.link"
    (Some "cloudify.management") sample_web
    {[ "cloudify_runtime" := VDict sample_runtime ]}
    {[ "cloudify_runtime" := VDict sample_runtime ]}
    (Some sample_db).

Definition sample_start_task : WorkflowTask :=
  dispatched_task sample_wf "task-1" "start" "agent_installer" "tasks.start"
    (Some "h1") sample_web
    {[ "p" := VInt 1; "cloudify_runtime" := VDict sample_runtime ]}
    {[ "p" := VInt 1; "cloudify_runtime" := VDict sample_runtime ]}
    None.

Definition sample_configure_task : WorkflowTask :=
  dispatched_task sample_wf "task-1" "configure" "deployer" "tasks.configure"
    (Some "dep1") sample_web
    {[ "a" := VInt 1; "cloudify_runtime" := VDict sample_runtime ]}
    {[ "a" := VInt 1; "cloudify_runtime" := VDict sample_runtime ]}
    None.

(** The sample plan once ['configure'] has run on the first node. *)
Definition sample_plan_configured : store :=
  [ set_node_operations
      (set_op_properties "configure"
         {[ "a" := VInt 1; "cloudify_runtime" := VDict sample_runtime ]})
      sample_web;
    sample_db ].

(** ** Iterating over the graph *)

(** [self.nodes]: [self._nodes.itervalues()]. The order is that of the
    underlying map, which a caller cannot rely on. *)
Definition nodes (self : CloudifyWorkflowContext) : list CloudifyWorkflowNode :=
  (map_to_list (_nodes self)).*2.

(** [self.relationships] *)
Definition relationships (self : CloudifyWorkflowNode)
    : list CloudifyWorkflowRelationship :=
  _relationships self.

(** * Verification *)

(** ** Stepping through monadic code *)

Lemma bind_Ok {A B} (m : M A) (k : A → M B) h b h' :
  bind m k h = (Ok b, h') ↔ ∃ a h1, m h = (Ok a, h1) ∧ k a h1 = (Ok b, h').
Proof.
  unfold bind. split.
  - destruct (m h) as [[a|e] h1]; [eauto | discriminate].
  - intros (a & h1 & -> & Hk). exact Hk.
Qed.

Lemma ret_Ok {A} (a b : A) h h' : ret a h = (Ok b, h') ↔ a = b ∧ h' = h.
Proof. unfold ret. split; [by intros [= -> ->] | by intros [-> ->]]. Qed.

Lemma lift_Ok {A} (r : res A) a h h' : lift r h = (Ok a, h') ↔ r = Ok a ∧ h' = h.
Proof. unfold lift. split; [by intros [= -> ->] | by intros [-> ->]]. Qed.

Lemma deref_Ok l h n h' : deref l h = (Ok n, h') ↔ h !! l = Some n ∧ h' = h.
Proof.
  unfold deref. destruct (h !! l) as [n0|]; split.
  - by intros [= -> ->].
  - by intros [[= ->] ->].
  - discriminate.
  - by intros [? _].
Qed.

Lemma attr_properties_Ok node h d h' :
  attr_properties node h = (Ok d, h') ↔
  ∃ l raw, node = ONode l ∧ h !! l = Some raw ∧
           d = default ∅ (raw_properties raw) ∧ h' = h.
Proof.
  split.
  - destruct node; try discriminate. cbn.
    intros (n & h1 & [Hn ->]%deref_Ok & [<- ->]%ret_Ok)%bind_Ok. eauto 10.
  - intros (l & raw & -> & Hl & -> & ->). cbn.
    apply bind_Ok. exists raw, h. split; [by apply deref_Ok | done].
Qed.

Lemma attr_id_Ok node h v h' :
  attr_id node h = (Ok v, h') ↔
  ∃ l raw, node = ONode l ∧ h !! l = Some raw ∧ v = of_opt (raw_id raw) ∧ h' = h.
Proof.
  split.
  - destruct node; try discriminate. cbn.
    intros (n & h1 & [Hn ->]%deref_Ok & [<- ->]%ret_Ok)%bind_Ok. eauto 10.
  - intros (l & raw & -> & Hl & -> & ->). cbn.
    apply bind_Ok. exists raw, h. split; [by apply deref_Ok | done].
Qed.

Lemma attr_name_Ok node h v h' :
  attr_name node h = (Ok v, h') ↔
  ∃ l raw, node = ONode l ∧ h !! l = Some raw ∧ v = of_opt (raw_name raw) ∧ h' = h.
Proof.
  split.
  - destruct node; try discriminate. cbn.
    intros (n & h1 & [Hn ->]%deref_Ok & [<- ->]%ret_Ok)%bind_Ok. eauto 10.
  - intros (l & raw & -> & Hl & -> & ->). cbn.
    apply bind_Ok. exists raw, h. split; [by apply deref_Ok | done].
Qed.

(** Reading never changes the store. *)
Lemma deref_store {l h} {x : res raw_node} {h'} : deref l h = (x, h') → h' = h.
Proof. unfold deref. destruct (h !! l); by intros [= _ ->]. Qed.

Lemma deref_relationship_store {a h} {x : res raw_relationship} {h'} :
  deref_relationship a h = (x, h') → h' = h.
Proof.
  unfold deref_relationship, bind, deref.
  destruct (h !! a.1) as [n|]; [|by intros [= _ ->]].
  destruct (default [] (raw_relationships n) !! a.2); by intros [= _ ->].
Qed.

Lemma read_ops_store {operations h} {x : res operations_table} {h'} :
  read_ops operations h = (x, h') → h' = h.
Proof.
  destruct operations as [l|l j source|]; cbn.
  - unfold bind, deref. destruct (h !! l) as [n|]; [|by intros [= _ ->]].
    destruct (raw_operations n); by intros [= _ ->].
  - unfold bind. destruct (deref_relationship (l, j) h) as [[r|e] h1] eqn:Hr.
    + apply deref_relationship_store in Hr as ->.
      destruct (if source then _ else _); by intros [= _ ->].
    + apply deref_relationship_store in Hr as ->. by intros [= _ ->].
  - by intros [= _ ->].
Qed.

(** The write of line 193 touches nothing but operation definitions. *)
Lemma write_op_properties_lookup operations operation d h l raw :
  h !! l = Some raw →
  ∃ raw', (write_op_properties operations operation d h).2 !! l = Some raw' ∧
          raw_id raw' = raw_id raw ∧ raw_name raw' = raw_name raw ∧
          raw_properties raw' = raw_properties raw ∧
          raw_plugins raw' = raw_plugins raw ∧
          raw_host_id raw' = raw_host_id raw.
Proof.
  intros Hl. destruct operations as [l0|l0 j source|]; cbn.
  - rewrite list_lookup_alter. case_decide as Heq.
    + subst l0. rewrite Hl. cbn. eauto 10.
    + eauto 10.
  - rewrite list_lookup_alter. case_decide as Heq.
    + subst l0. rewrite Hl. cbn. eauto 10.
    + eauto 10.
  - eauto 10.
Qed.

(** ** The router, step by step *)

Lemma resolve_operation_properties_eq l raw operations operation related op h :
  h !! l = Some raw →
  resolve_operation_properties (ONode l) operations operation
    (properties_ref_of related op) h
  = (Ok (base_properties related op raw),
     store_after related op raw operations operation h).
Proof.
  intros Hl. unfold resolve_operation_properties, bind. cbn.
  unfold bind, deref. rewrite Hl. cbn.
  unfold base_properties, store_after, properties_ref_of, node_runtime.
  destruct related; try reflexivity.
  destruct (op_properties op) as [d|]; [|reflexivity].
  unfold bind. by destruct operations.
Qed.

Lemma store_after_lookup related op raw0 operations operation h l raw :
  h !! l = Some raw →
  ∃ raw', store_after related op raw0 operations operation h !! l = Some raw' ∧
          raw_id raw' = raw_id raw ∧ raw_name raw' = raw_name raw ∧
          raw_properties raw' = raw_properties raw ∧
          raw_plugins raw' = raw_plugins raw ∧
          raw_host_id raw' = raw_host_id raw.
Proof.
  intros Hl. unfold store_after.
  destruct related; eauto 10.
  destruct (op_properties op); eauto 10.
  by apply write_op_properties_lookup.
Qed.

Lemma store_after_related related op raw operations operation h :
  related ≠ ONone → store_after related op raw operations operation h = h.
Proof. by destruct related. Qed.

(** Every dispatched task, taken apart. *)
Lemma _execute_operation_task self tid operation node operations related kwargs h t cc tid' h' :
  _execute_operation self tid operation node operations related kwargs h
    = (Ok (RemoteWorkflowTask t cc tid'), h') →
  ∃ l raw table op plugin_name mapping q tk rel,
    node = ONode l ∧ h !! l = Some raw ∧
    read_ops operations h = (Ok table, h) ∧ table !! operation = Some op ∧
    op_plugin op = Some plugin_name ∧ op_operation op = Some mapping ∧
    select_task_queue self raw plugin_name = Ok q ∧
    related_raw related h = Some rel ∧
    _safe_update (base_properties related op raw) (default ∅ kwargs) = Ok tk ∧
    h' = store_after related op raw operations operation h ∧
    tid' = tid ∧
    cc = _build_cloudify_context self tid q (plugin_name ++ "." ++ mapping)
           (Some (node_context_of operation plugin_name raw
                    (base_properties related op raw) rel)) ∧
    t = {| subtask_name := plugin_name ++ "." ++ mapping;
           subtask_kwargs := <["__cloudify_context" := VDict cc]>
                               (<["__cloudify_id" := of_opt (raw_id raw)]> tk);
           subtask_queue := q; subtask_immutable := true |}.
Proof.
  unfold _execute_operation.
  intros (l & h1 & Hnode & H)%bind_Ok.
  destruct node as [| |l0| |]; try discriminate Hnode.
  apply ret_Ok in Hnode as [-> ->].
  apply bind_Ok in H as (table & h1 & Hops & H).
  pose proof (read_ops_store Hops) as ->.
  destruct (table !! operation) as [op|] eqn:Hop; [|discriminate H].
  apply bind_Ok in H as (plugin_name & h1 & [Hplugin ->]%lift_Ok & H).
  apply bind_Ok in H as (mapping & h1 & [Hmapping ->]%lift_Ok & H).
  apply bind_Ok in H as (raw & h1 & [Hraw ->]%deref_Ok & H).
  apply bind_Ok in H as (q & h1 & [Hq ->]%lift_Ok & H).
  apply bind_Ok in H as (base & h1 & Hbase & H).
  apply bind_Ok in H as (tk & h2 & [Htk ->]%lift_Ok & H).
  apply bind_Ok in H as (nid & h2 & Hid & H).
  apply bind_Ok in H as (nname & h3 & Hname & H).
  apply bind_Ok in H as (nc & h4 & Hnc & [Ht ->]%ret_Ok).
  change (match related with ONone => _ | _ => PropsFresh ∅ end)
    with (properties_ref_of related op) in Hbase.
  rewrite (resolve_operation_properties_eq _ _ _ _ _ _ _ Hraw) in Hbase.
  injection Hbase as <- <-.
  destruct (store_after_lookup related op raw operations operation h l raw Hraw)
    as (raw' & Hraw' & Hid' & Hname' & _).
  apply attr_id_Ok in Hid as (? & r1 & [= <-] & Hr1 & -> & ->).
  apply attr_name_Ok in Hname as (? & r2 & [= <-] & Hr2 & -> & ->).
  assert (r1 = raw') as -> by (apply (inj Some); by rewrite <- Hr1, <- Hraw').
  assert (r2 = raw') as -> by (apply (inj Some); by rewrite <- Hr2, <- Hraw').
  rewrite Hid', Hname' in *.
  destruct (op_plugin op) as [p|] eqn:Hp; [|discriminate Hplugin].
  destruct (op_operation op) as [m|] eqn:Hm; [|discriminate Hmapping].
  injection Hplugin as ->. injection Hmapping as ->.
  unfold execute_task in Ht. cbn [default] in Ht.
  injection Ht as <- <- <-.
  assert (∃ rel, related_raw related h = Some rel ∧
            nc = node_context_of operation plugin_name raw
                   (base_properties related op raw) rel ∧
            h4 = store_after related op raw operations operation h)
    as (rel & Hrel & -> & ->).
  { destruct related as [| |l2| |].
    - apply ret_Ok in Hnc as [<- ->]. exists None.
      split; [reflexivity|]. split; reflexivity.
    - apply bind_Ok in Hnc as (? & ? & Hc & _). discriminate Hc.
    - apply bind_Ok in Hnc as (rp & h5 & Hrp & Hnc).
      apply bind_Ok in Hnc as (rid & h6 & Hrid & [<- ->]%ret_Ok).
      apply attr_properties_Ok in Hrp as (? & raw2 & [= <-] & Hl2 & -> & ->).
      apply attr_id_Ok in Hrid as (? & r3 & [= <-] & Hl2' & -> & ->).
      assert (r3 = raw2) as -> by (apply (inj Some); by rewrite <- Hl2, <- Hl2').
      exists (Some raw2). split; [|split; reflexivity].
      cbn [store_after] in Hl2. cbn [related_raw]. rewrite Hl2. reflexivity.
    - apply bind_Ok in Hnc as (? & ? & Hc & _). discriminate Hc.
    - apply bind_Ok in Hnc as (? & ? & Hc & _). discriminate Hc. }
  exists l, raw, table, op, plugin_name, mapping, q, tk, rel.
  repeat (split; [first [reflexivity | assumption] |]).
  reflexivity.
Qed.

Example sample_wf_built :
  CloudifyWorkflowContext__init__ sample_ctx sample_plan = Ok sample_wf.
Proof. vm_compute. reflexivity. Qed.

(** The no-op marker is returned only for an undeclared operation. *)
Lemma _execute_operation_NOP self tid operation node operations related kwargs h h' :
  _execute_operation self tid operation node operations related kwargs h
    = (Ok NOP, h') →
  ∃ table, read_ops operations h = (Ok table, h) ∧ table !! operation = None.
Proof.
  unfold _execute_operation.
  intros (l & h1 & Hnode & H)%bind_Ok.
  apply bind_Ok in H as (table & h2 & Hops & H).
  pose proof (read_ops_store Hops) as ->.
  assert (h1 = h) as ->.
  { destruct node; try discriminate Hnode. by apply ret_Ok in Hnode as [_ ->]. }
  exists table. split; [exact Hops|].
  destruct (table !! operation) as [op|]; [exfalso|reflexivity].
  repeat (apply bind_Ok in H as (? & ? & _ & H)).
  apply ret_Ok in H as [H _]. discriminate H.
Qed.

Lemma is_true_spec flag : is_true flag = true ↔ flag = VStr "true".
Proof.
  destruct flag; cbn; try (split; [discriminate|discriminate]).
  rewrite bool_decide_eq_true. split; [by intros -> | by intros [= ->]].
Qed.

Lemma is_true_false flag : flag ≠ VStr "true" → is_true flag = false.
Proof.
  intros Hne. destruct (is_true flag) eqn:E; [|reflexivity].
  by apply is_true_spec in E.
Qed.

(** ** The envelope, key by key *)


(** ** Routing *)




(** ** The merger *)

Lemma foldl_safe_update_Raise e l : foldl _safe_update_step (Raise e) l = Raise e.
Proof. induction l as [|[k v] l IH]; [reflexivity | exact IH]. Qed.

Lemma runtime_of_insert_ne k v (d : dict) :
  k ≠ cloudify_runtime → runtime_of (<[k := v]> d) = runtime_of d.
Proof. intros Hne. unfold runtime_of. by rewrite lookup_insert_ne. Qed.

(** The step at the reserved key. *)
Lemma _safe_update_step_runtime (r : dict) d :
  runtime_is_mapping r →
  _safe_update_step (Ok r) (cloudify_runtime, VDict d)
  = Ok (<[cloudify_runtime := VDict (d ∪ runtime_of r)]> r).
Proof.
  intros Hr. unfold _safe_update_step, runtime_of. cbn [res_bind].
  rewrite decide_True by reflexivity.
  destruct (r !! cloudify_runtime) as [v|] eqn:Hv.
  - destruct (Hr v Hv) as [t ->]. rewrite Hv. reflexivity.
  - rewrite lookup_insert_eq. cbn. by rewrite insert_insert_eq.
Qed.

(** The step at any other key. *)
Lemma _safe_update_step_other (r : dict) k v :
  k ≠ cloudify_runtime →
  _safe_update_step (Ok r) (k, v)
  = match r !! k with
    | Some _ => Raise (collision k)
    | None => Ok (<[k := v]> r)
    end.
Proof.
  intros Hne. unfold _safe_update_step. cbn [res_bind].
  by rewrite decide_False.
Qed.

Lemma runtime_is_mapping_insert_runtime (r : dict) d :
  runtime_is_mapping (<[cloudify_runtime := VDict d]> r).
Proof. intros v. rewrite lookup_insert_eq. intros [= <-]. eauto. Qed.

Lemma runtime_is_mapping_insert_ne (r : dict) k v :
  k ≠ cloudify_runtime → runtime_is_mapping r → runtime_is_mapping (<[k := v]> r).
Proof. intros Hne Hr w. rewrite lookup_insert_ne by done. apply Hr. Qed.

Lemma merged_lookup (d1 d2 : dict) k :
  merged d1 d2 !! k
  = if decide (k = cloudify_runtime) then
      match d1 !! cloudify_runtime with
      | Some (VDict r1) => Some (VDict (r1 ∪ runtime_of d2))
      | Some v => Some v
      | None => d2 !! cloudify_runtime
      end
    else (d1 ∪ d2) !! k.
Proof.
  unfold merged. case_decide as Hk.
  - subst k. destruct (d1 !! cloudify_runtime) as [v|] eqn:Hv.
    + destruct v; try (rewrite lookup_union, Hv; by destruct (d2 !! _)).
      by rewrite lookup_insert_eq.
    + rewrite lookup_union, Hv. by destruct (d2 !! _).
  - destruct (d1 !! cloudify_runtime) as [[]|]; try reflexivity.
    by rewrite lookup_insert_ne.
Qed.

(** Without a shared key the loop runs to its end and builds [merged]. *)
Lemma foldl_safe_update_Ok (l : list (string * value)) (r : dict) :
  NoDup l.*1 →
  (∀ k v, (k, v) ∈ l → k = cloudify_runtime → ∃ d, v = VDict d) →
  runtime_is_mapping r →
  (∀ k v, (k, v) ∈ l → k ≠ cloudify_runtime → r !! k = None) →
  foldl _safe_update_step (Ok r) l = Ok (merged (list_to_map l) r).
Proof.
  revert r. induction l as [|[k0 v0] l IH]; intros r Hdup Hl Hr Hdisj.
  - cbn. f_equal. apply map_eq. intros k. rewrite merged_lookup.
    rewrite lookup_empty, (left_id_L ∅ (∪)). by case_decide; subst.
  - apply NoDup_cons in Hdup as [Hk0 Hdup]. cbn [foldl list_to_map foldr].
    assert ((list_to_map l : dict) !! k0 = None) as HLk0
      by (by apply not_elem_of_list_to_map_1).
    destruct (decide (k0 = cloudify_runtime)) as [->|Hne].
    + destruct (Hl cloudify_runtime v0) as [d ->]; [left|reflexivity|].
      rewrite _safe_update_step_runtime by done.
      rewrite IH.
      * f_equal. apply map_eq. intros k. rewrite !merged_lookup.
        rewrite HLk0. rewrite lookup_insert_eq.
        case_decide as Hk.
        -- subst k. cbn. by rewrite lookup_insert_eq.
        -- rewrite !lookup_union, !lookup_insert_ne by done. reflexivity.
      * done.
      * intros k v Hin. apply Hl. by right.
      * apply runtime_is_mapping_insert_runtime.
      * intros k v Hin Hk. rewrite lookup_insert_ne by done.
        apply (Hdisj k v); [by right | done].
    + rewrite _safe_update_step_other by done.
      rewrite (Hdisj k0 v0 ltac:(left) Hne).
      rewrite IH.
      * f_equal. apply map_eq. intros k. rewrite !merged_lookup.
        rewrite lookup_insert_ne by done.
        rewrite runtime_of_insert_ne by done.
        case_decide as Hk.
        -- subst k. by rewrite lookup_insert_ne.
        -- rewrite !lookup_union.
           destruct (decide (k = k0)) as [->|Hkk].
           ++ rewrite !lookup_insert_eq, HLk0.
              rewrite (Hdisj k0 v0 ltac:(left) Hne). reflexivity.
           ++ rewrite !lookup_insert_ne by done. reflexivity.
      * done.
      * intros k v Hin. apply Hl. by right.
      * by apply runtime_is_mapping_insert_ne.
      * intros k v Hin Hk.
        assert (k ≠ k0).
        { intros ->. apply Hk0. apply list_elem_of_fmap. by exists (k0, v). }
        rewrite lookup_insert_ne by done.
        apply (Hdisj k v); [by right | done].
Qed.

(** With a shared key the loop stops at one. *)
Lemma foldl_safe_update_collision (l : list (string * value)) (r : dict) :
  NoDup l.*1 →
  (∀ k v, (k, v) ∈ l → k = cloudify_runtime → ∃ d, v = VDict d) →
  runtime_is_mapping r →
  (∃ k v, (k, v) ∈ l ∧ k ≠ cloudify_runtime ∧ is_Some (r !! k)) →
  ∃ k, k ≠ cloudify_runtime ∧ k ∈ l.*1 ∧ is_Some (r !! k) ∧
       foldl _safe_update_step (Ok r) l = Raise (collision k).
Proof.
  revert r. induction l as [|[k0 v0] l IH]; intros r Hdup Hl Hr (k & v & Hin & Hk & Hrk).
  - by apply elem_of_nil in Hin.
  - apply NoDup_cons in Hdup as [Hk0 Hdup]. cbn [foldl].
    destruct (decide (k0 = cloudify_runtime)) as [->|Hne].
    + destruct (Hl cloudify_runtime v0) as [d ->]; [left|reflexivity|].
      rewrite _safe_update_step_runtime by done.
      apply elem_of_cons in Hin as [[= -> ->]|Hin]; [done|].
      destruct (IH (<[cloudify_runtime := VDict (d ∪ runtime_of r)]> r))
        as (k' & Hk' & Hin' & Hrk' & Hfold).
      * done.
      * intros k1 v1 Hin1. apply Hl. by right.
      * apply runtime_is_mapping_insert_runtime.
      * exists k, v. by rewrite lookup_insert_ne.
      * exists k'. rewrite lookup_insert_ne in Hrk' by done.
        repeat split; [done | by right | done | done].
    + rewrite _safe_update_step_other by done.
      destruct (r !! k0) as [w|] eqn:Hrk0.
      * exists k0. rewrite foldl_safe_update_Raise, Hrk0.
        repeat split; [done | by left | by eexists].
      * apply elem_of_cons in Hin as [[= -> ->]|Hin].
        { rewrite Hrk0 in Hrk. by destruct Hrk. }
        destruct (IH (<[k0 := v0]> r)) as (k' & Hk' & Hin' & Hrk' & Hfold).
        -- done.
        -- intros k1 v1 Hin1. apply Hl. by right.
        -- by apply runtime_is_mapping_insert_ne.
        -- exists k, v. repeat split; [done|done|].
           destruct Hrk as [w Hw]. destruct (decide (k0 = k)) as [->|?].
           ++ rewrite lookup_insert_eq. by eexists.
           ++ rewrite lookup_insert_ne by done. by eexists.
        -- exists k'. assert (k' ≠ k0) by (by intros ->).
           rewrite lookup_insert_ne in Hrk' by done.
           repeat split; [done | by right | done | done].
Qed.

Lemma merged_dom (dict1 dict2 : dict) :
  dom (merged dict1 dict2) = dom dict1 ∪ dom dict2.
Proof.
  unfold merged. destruct (dict1 !! cloudify_runtime) as [v|] eqn:Hv.
  - assert (cloudify_runtime ∈ dom dict1) by (apply elem_of_dom; by eexists).
    destruct v; rewrite ?dom_insert_L, dom_union_L; set_solver.
  - by rewrite dom_union_L.
Qed.

Lemma map_to_list_runtime (dict1 : dict) :
  runtime_is_mapping dict1 →
  ∀ k v, (k, v) ∈ map_to_list dict1 → k = cloudify_runtime → ∃ d, v = VDict d.
Proof. intros H1 k v Hin ->. apply H1. by apply elem_of_map_to_list. Qed.

(** C2, as the code has it. For maps whose reserved entry, when present,
    is a mapping: the merge returns the union of the two maps exactly when
    they share no key other than ['cloudify_runtime'], and raises
    ['Target map already contains key'] for a shared key otherwise; under
    the reserved key the result holds the union of the two sub-maps, in
    which the entries of the declared properties win over the caller's. *)
Theorem _safe_update_merges (dict1 dict2 : dict) :
  runtime_is_mapping dict1 →
  runtime_is_mapping dict2 →
  (disjoint_apart_from_runtime dict1 dict2 →
     _safe_update dict1 dict2 = Ok (merged dict1 dict2) ∧
     dom (merged dict1 dict2) = dom dict1 ∪ dom dict2 ∧
     (∀ r1 r2, dict1 !! cloudify_runtime = Some (VDict r1) →
               dict2 !! cloudify_runtime = Some (VDict r2) →
               merged dict1 dict2 !! cloudify_runtime = Some (VDict (r1 ∪ r2)))) ∧
  (¬ disjoint_apart_from_runtime dict1 dict2 →
     ∃ k, k ≠ cloudify_runtime ∧ is_Some (dict1 !! k) ∧ is_Some (dict2 !! k) ∧
          _safe_update dict1 dict2 = Raise (collision k)).
Proof.
  intros H1 H2. split.
  - intros Hdisj. split; [|split].
    + unfold _safe_update.
      rewrite foldl_safe_update_Ok.
      * by rewrite list_to_map_to_list.
      * apply NoDup_fst_map_to_list.
      * by apply map_to_list_runtime.
      * exact H2.
      * intros k v Hin Hk. apply Hdisj; [exact Hk|].
        apply elem_of_map_to_list in Hin. by eexists.
    + apply merged_dom.
    + intros r1 r2 Hr1 Hr2. rewrite merged_lookup, decide_True by reflexivity.
      rewrite Hr1. unfold runtime_of. by rewrite Hr2.
  - intros Hshared.
    assert (∃ k v, (k, v) ∈ map_to_list dict1 ∧ k ≠ cloudify_runtime ∧
                   is_Some (dict2 !! k)) as Hex.
    { destruct (decide (Exists (λ kv : string * value,
                  kv.1 ≠ cloudify_runtime ∧ is_Some (dict2 !! kv.1))
                  (map_to_list dict1))) as [Hyes|Hno].
      - apply Exists_exists in Hyes as ([k v] & Hin & Hk & Hs). by exists k, v.
      - exfalso. apply Hshared. intros k Hk [v Hv].
        destruct (dict2 !! k) as [w|] eqn:Hw; [|reflexivity].
        exfalso. apply Hno. apply Exists_exists. exists (k, v). cbn. rewrite Hw.
        split; [by apply elem_of_map_to_list | by split]. }
    destruct (foldl_safe_update_collision (map_to_list dict1) dict2)
      as (k & Hk & Hin & Hs & Hfold).
    + apply NoDup_fst_map_to_list.
    + by apply map_to_list_runtime.
    + exact H2.
    + exact Hex.
    + exists k. split; [exact Hk|]. split; [|by split].
      apply list_elem_of_fmap in Hin as ([k' v] & -> & Hin).
      apply elem_of_map_to_list in Hin. by eexists.
Qed.

Lemma _safe_update_merges_witness :
  _safe_update
    {[ "a" := VInt 1; "cloudify_runtime" := VDict {[ "x" := VInt 1 ]} ]}
    {[ "cloudify_runtime" := VDict {[ "y" := VInt 2 ]} ]}
  = Ok {[ "a" := VInt 1;
          "cloudify_runtime" := VDict {[ "x" := VInt 1; "y" := VInt 2 ]} ]}.
Proof.
  refine (eq_trans (proj1 (proj1 (_safe_update_merges
    {[ "a" := VInt 1; "cloudify_runtime" := VDict {[ "x" := VInt 1 ]} ]}
    {[ "cloudify_runtime" := VDict {[ "y" := VInt 2 ]} ]} _ _) _)) _).
  - intros v Hv. vm_compute in Hv. injection Hv as <-. eexists. reflexivity.
  - intros v Hv. vm_compute in Hv. injection Hv as <-. eexists. reflexivity.
  - intros k Hk _. apply lookup_singleton_ne. by intros <-.
  - vm_compute. reflexivity.
Defined.

(** The second example of the claim: a shared ordinary key is refused. *)
Example _safe_update_collision :
  _safe_update {[ "a" := VInt 1 ]} {[ "a" := VInt 2 ]} = Raise (collision "a").
Proof. vm_compute. reflexivity. Qed.

(** C2, where the claim fails: on a key present in both sub-maps the
    declared entry is kept, not the caller's. *)
Lemma _safe_update_declared_entry_wins :
  let declared : dict := {[ "cloudify_runtime" := VDict {[ "x" := VInt 1 ]} ]} in
  let extra : dict := {[ "cloudify_runtime" := VDict {[ "x" := VInt 2 ]} ]} in
  _safe_update declared extra
    = Ok {[ "cloudify_runtime" := VDict {[ "x" := VInt 1 ]} ]} ∧
  _safe_update declared extra
    ≠ Ok {[ "cloudify_runtime" := VDict {[ "x" := VInt 2 ]} ]}.
Proof.
  cbv zeta. split.
  - vm_compute. reflexivity.
  - intros Heq.
    apply (f_equal (λ r : res dict,
      match r with
      | Ok d => runtime_of d !! "x"
      | Raise _ => None
      end)) in Heq.
    vm_compute in Heq. discriminate Heq.
Qed.

(** ** Undeclared operations *)

Lemma _execute_operation_undeclared self tid operation l operations related
    kwargs h table :
  read_ops operations h = (Ok table, h) →
  table !! operation = None →
  _execute_operation self tid operation (ONode l) operations related kwargs h
  = (Ok NOP, h).
Proof.
  intros Hops Hnone. unfold _execute_operation.
  unfold bind at 1. cbn [attr__node ret].
  unfold bind at 1. rewrite Hops, Hnone. reflexivity.
Qed.

(** C4. An operation name that is not in the operations table handed to
    the router yields the no-op marker, without an error and without
    touching the store, whatever the node's plugins and [host_id], the
    related node and the caller's kwargs are; so does the node's own
    [execute_operation] for a name its operations do not declare. *)
Theorem undeclared_operation_is_NOP self tid operation l operations related
    kwargs h table :
  read_ops operations h = (Ok table, h) →
  table !! operation = None →
  _execute_operation self tid operation (ONode l) operations related kwargs h
    = (Ok NOP, h) ∧
  (∀ node raw, node_ctx node = OContext → h !! _node node = Some raw →
     raw_operations raw = Some table →
     execute_operation self node tid operation kwargs h = (Ok NOP, h)).
Proof.
  intros Hops Hnone. split.
  - exact (_execute_operation_undeclared _ _ _ _ _ _ _ _ table Hops Hnone).
  - intros node raw Hctx Hraw Htable. unfold execute_operation.
    rewrite Hctx. unfold bind at 1. cbn [attr__execute_operation ret].
    unfold bind at 1. unfold deref at 1. rewrite Hraw.
    unfold bind at 1. rewrite Htable. cbn [getfield lift].
    apply (_execute_operation_undeclared _ _ _ _ _ _ _ _ table); [|exact Hnone].
    cbn [read_ops]. unfold bind, deref. rewrite Hraw, Htable. reflexivity.
Qed.

Lemma undeclared_operation_is_NOP_witness :
  _execute_operation sample_wf "task-1" "uninstall" (ONode 1) (OpsOfNode 1)
    (ONode 0) (Some {[ "x" := VInt 1 ]}) sample_plan
  = (Ok NOP, sample_plan).
Proof.
  refine (proj1 (undeclared_operation_is_NOP sample_wf "task-1" "uninstall" 1
    (OpsOfNode 1) (ONode 0) (Some {[ "x" := VInt 1 ]}) sample_plan
    (default ∅ (raw_operations sample_db)) _ _)); reflexivity.
Defined.

(** ** What a call does to the graph *)

(** A dispatch that is triggered through a relationship, or whose
    operation declares no properties, leaves the store as it was. *)
Lemma _execute_operation_store self tid operation node operations related kwargs
    h t cc tid' h' :
  _execute_operation self tid operation node operations related kwargs h
    = (Ok (RemoteWorkflowTask t cc tid'), h') →
  related ≠ ONone ∨
    (∀ table op, read_ops operations h = (Ok table, h) →
                 table !! operation = Some op → op_properties op = None) →
  h' = h.
Proof.
  intros Hrun Hcase.
  apply _execute_operation_task in Hrun
    as (l & raw & table & op & p & m & q & tk & rel & -> & Hraw & Hops & Hop
        & _ & _ & _ & _ & _ & -> & _).
  destruct Hcase as [Hrel|Hnone].
  - by apply store_after_related.
  - unfold store_after. rewrite (Hnone table op Hops Hop). by destruct related.
Qed.

(** C3, at the input where it fails: a node-triggered operation whose
    definition declares properties. The call stores the node's runtime
    sub-map under ['cloudify_runtime'] in the declared properties of the
    operation definition itself, so the graph is not what it was. *)
Theorem execute_operation_writes_declared_properties :
  execute_operation sample_wf (CloudifyWorkflowNode__init__ OContext 0 sample_web)
    "task-1" "configure" None sample_plan
    = (Ok sample_configure_task, sample_plan_configured) ∧
  declared_properties sample_plan 0 "configure" = Some {[ "a" := VInt 1 ]} ∧
  declared_properties sample_plan_configured 0 "configure"
    = Some {[ "a" := VInt 1;
              "cloudify_runtime" := VDict {[ "ip" := VStr "10.0.0.1" ]} ]} ∧
  sample_plan_configured ≠ sample_plan.
Proof.
  split; [vm_compute; reflexivity|].
  split; [vm_compute; reflexivity|].
  split; [vm_compute; reflexivity|].
  pose (has_runtime := λ h : store,
    match declared_properties h 0 "configure" with
    | Some d => bool_decide (is_Some (d !! cloudify_runtime))
    | None => false
    end).
  intros Heq.
  assert (has_runtime sample_plan = false) as Hbefore by (vm_compute; reflexivity).
  rewrite <- Heq in Hbefore.
  revert Hbefore. vm_compute. discriminate.
Qed.

(** ** Envelopes *)

Lemma envelope_node_properties self tid q name operation plugin_name raw base rel :
  _build_cloudify_context self tid q name
    (Some (node_context_of operation plugin_name raw base rel)) !! "node_properties"
  = Some (VDict (delete cloudify_runtime (delete "__cloudify_id" base))).
Proof. destruct rel; reflexivity. Qed.

Lemma envelope_capabilities self tid q name operation plugin_name raw base rel :
  _build_cloudify_context self tid q name
    (Some (node_context_of operation plugin_name raw base rel)) !! "capabilities"
  = Some (default (VDict ∅) (base !! cloudify_runtime)).
Proof. destruct rel; reflexivity. Qed.

Lemma envelope_no_internal_keys self tid q name operation plugin_name raw base rel :
  _build_cloudify_context self tid q name
    (Some (node_context_of operation plugin_name raw base rel)) !! cloudify_runtime
    = None ∧
  _build_cloudify_context self tid q name
    (Some (node_context_of operation plugin_name raw base rel)) !! "__cloudify_id"
    = None ∧
  _build_cloudify_context self tid q name
    (Some (node_context_of operation plugin_name raw base rel)) !! "protocol_version"
    = None.
Proof. destruct rel; repeat split; reflexivity. Qed.


Lemma envelope_related self tid q name operation plugin_name raw base rel :
  _build_cloudify_context self tid q name
    (Some (node_context_of operation plugin_name raw base rel)) !! "related"
  = (λ raw', VDict {[ "node_id" := of_opt (raw_id raw');
                      "node_properties" :=
                        VDict (delete cloudify_runtime
                                 (default ∅ (raw_properties raw'))) ]}) <$> rel.
Proof. destruct rel; reflexivity. Qed.




(** What [execute_relationship_operation] hands to the router. *)
Lemma execute_relationship_operation_eq wf self tid operation run_on_source
    kwargs h r :
  rel_ctx self = OContext →
  deref_relationship (_relationship self) h = (Ok r, h) →
  execute_relationship_operation wf self tid operation run_on_source kwargs h
  = let target_node :=
      match rel_target_id r ≫= get_node wf with
      | Some w => ONode (_node w)
      | None => ONone
      end in
    if run_on_source then
      _execute_operation wf tid operation (rel_node self)
        match rel_source_operations r with
        | Some _ => OpsOfRelationship (_relationship self).1 (_relationship self).2 true
        | None => OpsFresh
        end target_node kwargs h
    else
      _execute_operation wf tid operation target_node
        match rel_target_operations r with
        | Some _ => OpsOfRelationship (_relationship self).1 (_relationship self).2 false
        | None => OpsFresh
        end (ORelationship (_relationship self).1 (_relationship self).2) kwargs h.
Proof.
  intros Hctx Hderef. unfold execute_relationship_operation.
  rewrite Hctx. unfold bind at 1. cbn [attr_get_node ret].
  unfold bind at 1. unfold target_id. unfold bind at 1. rewrite Hderef.
  cbn [ret]. unfold bind at 1. rewrite Hderef.
  destruct (_relationship self) as [l j]. by destruct run_on_source.
Qed.

(** The table behind the operations reference of a run on the source. *)
Lemma read_ops_source self h r table :
  deref_relationship (_relationship self) h = (Ok r, h) →
  read_ops
    match rel_source_operations r with
    | Some _ => OpsOfRelationship (_relationship self).1 (_relationship self).2 true
    | None => OpsFresh
    end h = (Ok table, h) →
  table = default ∅ (rel_source_operations r).
Proof.
  intros Hderef Hops. destruct (_relationship self) as [l j].
  destruct (rel_source_operations r) as [source|] eqn:Hsource.
  - cbn [fst snd read_ops] in Hops. unfold bind in Hops.
    rewrite Hderef, Hsource in Hops. by injection Hops as <-.
  - cbn in Hops. by injection Hops as <-.
Qed.

(** C6, as the code has it. An operation that is given a related node
    never takes the acting node's properties as its base: whatever the
    operation definition declares, the base merged with the caller's kwargs
    holds nothing but the ['cloudify_runtime'] entry, and the envelope's
    [node_properties] block is empty, the runtime sub-map being passed as
    [capabilities]. An operation run on the source of a relationship bound
    to the workflow context is given a related node exactly when the
    relationship's target is in the graph; when it is not, the base is that
    of an operation of the node itself: the declared properties or, when the
    operation declares none, the acting node's properties. *)
Theorem relationship_base_is_runtime_only :
  (∀ self tid operation node operations related kwargs h t cc tid' h',
     related ≠ ONone →
     _execute_operation self tid operation node operations related kwargs h
       = (Ok (RemoteWorkflowTask t cc tid'), h') →
     ∃ l raw op task_kwargs,
       node = ONode l ∧ h !! l = Some raw ∧
       base_properties related op raw = {[ cloudify_runtime := node_runtime raw ]} ∧
       _safe_update {[ cloudify_runtime := node_runtime raw ]} (default ∅ kwargs)
         = Ok task_kwargs ∧
       subtask_kwargs t
         = <["__cloudify_context" := VDict cc]>
             (<["__cloudify_id" := of_opt (raw_id raw)]> task_kwargs) ∧
       cc !! "node_properties" = Some (VDict ∅) ∧
       cc !! "capabilities" = Some (node_runtime raw) ∧
       h' = h) ∧
  (∀ wf self tid operation kwargs h r t cc tid' h',
     rel_ctx self = OContext →
     deref_relationship (_relationship self) h = (Ok r, h) →
     execute_relationship_operation wf self tid operation true kwargs h
       = (Ok (RemoteWorkflowTask t cc tid'), h') →
     ∃ l raw op task_kwargs base,
       rel_node self = ONode l ∧ h !! l = Some raw ∧
       default ∅ (rel_source_operations r) !! operation = Some op ∧
       base = match rel_target_id r ≫= get_node wf with
              | Some _ => {[ cloudify_runtime := node_runtime raw ]}
              | None =>
                  match op_properties op with
                  | Some d => <[cloudify_runtime := node_runtime raw]> d
                  | None => default ∅ (raw_properties raw)
                  end
              end ∧
       _safe_update base (default ∅ kwargs) = Ok task_kwargs ∧
       subtask_kwargs t
         = <["__cloudify_context" := VDict cc]>
             (<["__cloudify_id" := of_opt (raw_id raw)]> task_kwargs) ∧
       cc !! "node_properties"
         = Some (VDict (delete cloudify_runtime (delete "__cloudify_id" base))) ∧
       cc !! "capabilities" = Some (default (VDict ∅) (base !! cloudify_runtime))).
Proof.
  split.
  - intros self tid operation node operations related kwargs h t cc tid' h'
      Hrel Hrun.
    apply _execute_operation_task in Hrun
      as (l & raw & table & op & p & m & q & tk & rel & -> & Hraw & _ & _ & _ & _
          & _ & _ & Htk & -> & -> & -> & ->).
    assert (base_properties related op raw
            = {[ cloudify_runtime := node_runtime raw ]})
      as Hbase by (by destruct related).
    rewrite Hbase in *.
    exists l, raw, op, tk.
    split; [reflexivity|]. split; [exact Hraw|]. split; [exact Hbase|].
    split; [exact Htk|]. split; [reflexivity|].
    split; [|split].
    + rewrite envelope_node_properties. reflexivity.
    + rewrite envelope_capabilities. by rewrite lookup_singleton_eq.
    + by apply store_after_related.
  - intros wf self tid operation kwargs h r t cc tid' h' Hctx Hderef Hrun.
    rewrite (execute_relationship_operation_eq _ _ _ _ _ _ _ _ Hctx Hderef) in Hrun.
    cbv zeta in Hrun.
    apply _execute_operation_task in Hrun
      as (l & raw & table & op & p & m & q & tk & rel & Hnode & Hraw & Hops & Hop
          & _ & _ & _ & _ & Htk & _ & _ & -> & ->).
    rewrite (read_ops_source _ _ _ _ Hderef Hops) in Hop.
    exists l, raw, op, tk.
    exists (base_properties
              match rel_target_id r ≫= get_node wf with
              | Some w => ONode (_node w)
              | None => ONone
              end op raw).
    split; [exact Hnode|]. split; [exact Hraw|]. split; [exact Hop|].
    split.
    { destruct (rel_target_id r ≫= get_node wf) as [w|]; [reflexivity|].
      unfold base_properties. by destruct (op_properties op). }
    split; [exact Htk|]. split; [reflexivity|].
    split; [apply envelope_node_properties | apply envelope_capabilities].
Qed.

Lemma relationship_base_is_runtime_only_witness :
  ∃ t cc,
    sample_link_task = RemoteWorkflowTask t cc "task-1" ∧
    cc !! "node_properties" = Some (VDict ∅) ∧
    cc !! "capabilities" = Some (node_runtime sample_web).
Proof.
  assert (_execute_operation sample_wf "task-1" "link" (ONode 0)
            (OpsOfRelationship 0 0 true) (ONode 1) None sample_plan
          = (Ok sample_link_task, sample_plan)) as Hrun
    by (vm_compute; reflexivity).
  destruct (proj1 relationship_base_is_runtime_only sample_wf "task-1" "link"
    (ONode 0) (OpsOfRelationship 0 0 true) (ONode 1) None sample_plan _ _ "task-1"
    sample_plan ltac:(discriminate) Hrun)
    as (l & raw & op & tk & Hnode & Hraw & _ & _ & _ & Hprops & Hcaps & _).
  injection Hnode as <-. injection Hraw as <-.
  eexists _, _. split; [reflexivity|]. split; [exact Hprops | exact Hcaps].
Defined.

(** C6, where the claim fails: run on the source of a relationship whose
    target ['missing'] is not in the graph, the operation ['link'], which
    declares no properties, takes the properties of the acting node as its
    base: the entry [p] of the node is in the task's kwargs and in the
    envelope's [node_properties] block. *)
Lemma relationship_base_holds_node_properties :
  op_properties sample_link = None ∧
  ∃ t cc,
    execute_relationship_operation sample_wf
      (CloudifyWorkflowRelationship__init__ OContext (ONode 0) (0, 1))
      "task-1" "link" true None sample_plan
    = (Ok (RemoteWorkflowTask t cc "task-1"), sample_plan) ∧
    subtask_kwargs t !! "p" = Some (VInt 1) ∧
    cc !! "node_properties" = Some (VDict {[ "p" := VInt 1 ]}) ∧
    cc !! "node_properties" ≠ Some (VDict ∅).
Proof.
  split; [reflexivity|].
  assert (execute_relationship_operation sample_wf
            (CloudifyWorkflowRelationship__init__ OContext (ONode 0) (0, 1))
            "task-1" "link" true None sample_plan
          = (Ok (dispatched_task sample_wf "task-1" "link" "notifier" "rel.link"
                   (Some "cloudify.management") sample_web
                   {[ "p" := VInt 1; "cloudify_runtime" := VDict sample_runtime ]}
                   {[ "p" := VInt 1; "cloudify_runtime" := VDict sample_runtime ]}
                   None),
             sample_plan)) as Hrun
    by (vm_compute; reflexivity).
  eexists _, _. split; [exact Hrun|].
  assert (_build_cloudify_context sample_wf "task-1" (Some "cloudify.management")
            ("notifier" ++ "." ++ "rel.link")
            (Some (node_context_of "link" "notifier" sample_web
                     {[ "p" := VInt 1; "cloudify_runtime" := VDict sample_runtime ]}
                     None)) !! "node_properties"
          = Some (VDict {[ "p" := VInt 1 ]})) as Hprops
    by (vm_compute; reflexivity).
  split; [vm_compute; reflexivity|]. split; [exact Hprops|].
  rewrite Hprops. intros Heq.
  apply (f_equal (λ o : option value,
    match o with
    | Some (VDict d) => d !! "p"
    | _ => None
    end)) in Heq.
  vm_compute in Heq. discriminate Heq.
Qed.

(** C7. In every envelope built for an operation on a node, the
    [node_properties] block has neither the ['__cloudify_id'] key nor the
    ['cloudify_runtime'] key, and the envelope has no such key itself: the
    runtime sub-map of the operation's properties is passed under
    ['capabilities'] only. When there is a related node, its properties
    block has no ['cloudify_runtime'] key either. *)
Theorem envelope_properties_are_sanitized self tid operation node operations
    related kwargs h t cc tid' h' :
  _execute_operation self tid operation node operations related kwargs h
    = (Ok (RemoteWorkflowTask t cc tid'), h') →
  ∃ l raw op node_properties,
    node = ONode l ∧ h !! l = Some raw ∧
    cc !! "node_properties" = Some (VDict node_properties) ∧
    node_properties !! "__cloudify_id" = None ∧
    node_properties !! cloudify_runtime = None ∧
    cc !! cloudify_runtime = None ∧
    cc !! "__cloudify_id" = None ∧
    cc !! "capabilities"
      = Some (default (VDict ∅) (base_properties related op raw !! cloudify_runtime)) ∧
    match related with
    | ONone => cc !! "related" = None
    | _ => ∃ related_id related_properties,
             cc !! "related"
               = Some (VDict {[ "node_id" := related_id;
                                "node_properties" := VDict related_properties ]}) ∧
             related_properties !! cloudify_runtime = None
    end.
Proof.
  intros Hrun.
  apply _execute_operation_task in Hrun
    as (l & raw & table & op & p & m & q & tk & rel & -> & Hraw & _ & _ & _ & _
        & _ & Hrel & _ & _ & _ & -> & _).
  exists l, raw, op,
    (delete cloudify_runtime (delete "__cloudify_id" (base_properties related op raw))).
  split; [reflexivity|]. split; [exact Hraw|].
  split; [apply envelope_node_properties|].
  split; [rewrite lookup_delete_ne by done; apply lookup_delete_eq|].
  split; [apply lookup_delete_eq|].
  split; [apply envelope_no_internal_keys|].
  split; [apply envelope_no_internal_keys|].
  split; [apply envelope_capabilities|].
  rewrite envelope_related.
  destruct related as [| |l2| |]; cbn in Hrel; try discriminate Hrel.
  - by injection Hrel as <-.
  - destruct (h !! l2) as [raw2|]; [|discriminate Hrel]. injection Hrel as <-.
    eexists _, _. split; [reflexivity|]. apply lookup_delete_eq.
Qed.

Lemma envelope_properties_are_sanitized_witness :
  ∃ t cc,
    sample_start_task = RemoteWorkflowTask t cc "task-1" ∧
    cc !! cloudify_runtime = None ∧
    cc !! "related" = None.
Proof.
  assert (_execute_operation sample_wf "task-1" "start" (ONode 0) (OpsOfNode 0)
            ONone None sample_plan
          = (Ok sample_start_task, sample_plan)) as Hrun
    by (vm_compute; reflexivity).
  destruct (envelope_properties_are_sanitized sample_wf "task-1" "start" (ONode 0)
    (OpsOfNode 0) ONone None sample_plan _ _ "task-1" sample_plan Hrun)
    as (l & raw & op & np & _ & _ & _ & _ & _ & Hrt & _ & _ & Hrelated).
  eexists _, _. split; [reflexivity|]. split; [exact Hrt | exact Hrelated].
Defined.




(** ** The node graph *)

Lemma build_nodes_ids l nodes acc m :
  build_nodes l nodes acc = Ok m → ∀ n, n ∈ nodes → is_Some (raw_id n).
Proof.
  revert l acc. induction nodes as [|node rest IH]; intros l acc Hbuild n Hin.
  - by apply elem_of_nil in Hin.
  - cbn in Hbuild. destruct (raw_id node) as [k|] eqn:Hk; [|discriminate Hbuild].
    cbn in Hbuild. apply elem_of_cons in Hin as [->|Hin].
    + by rewrite Hk.
    + by eapply IH.
Qed.

(** An id that no node has is looked up as before the comprehension. *)
Lemma build_nodes_absent l nodes acc m k :
  build_nodes l nodes acc = Ok m →
  (∀ n, n ∈ nodes → raw_id n ≠ Some k) →
  m !! k = acc !! k.
Proof.
  revert l acc. induction nodes as [|node rest IH]; intros l acc Hbuild Hk.
  - cbn in Hbuild. by injection Hbuild as <-.
  - cbn in Hbuild. destruct (raw_id node) as [k0|] eqn:Hk0; [|discriminate Hbuild].
    cbn in Hbuild. rewrite (IH _ _ Hbuild).
    + apply lookup_insert_ne. intros ->. apply (Hk node); [left | exact Hk0].
    + intros n Hin. apply Hk. by right.
Qed.

(** With distinct ids, each node is found under its id. *)
Lemma build_nodes_present l nodes acc m i n k :
  NoDup (raw_id <$> nodes) →
  build_nodes l nodes acc = Ok m →
  nodes !! i = Some n → raw_id n = Some k →
  m !! k = Some (CloudifyWorkflowNode__init__ OContext (l + i) n).
Proof.
  revert l acc i. induction nodes as [|node rest IH]; intros l acc i Hdup Hbuild Hi Hk.
  - discriminate Hi.
  - cbn in Hbuild. destruct (raw_id node) as [k0|] eqn:Hk0; [|discriminate Hbuild].
    cbn in Hbuild. cbn in Hdup. apply NoDup_cons in Hdup as [Hfresh Hdup].
    destruct i as [|i]; cbn in Hi.
    + injection Hi as ->. rewrite Hk0 in Hk. injection Hk as ->.
      rewrite (build_nodes_absent _ _ _ _ k Hbuild).
      * rewrite Nat.add_0_r. apply lookup_insert_eq.
      * intros n' Hin Hn'. apply Hfresh. rewrite Hk0, <- Hn'.
        apply list_elem_of_fmap. by exists n'.
    + replace (l + S i) with (S l + i) by lia. by eapply IH.
Qed.

(** Every wrapper in the graph was built from a node of the plan, at the
    node's position. *)
Lemma build_nodes_values l nodes acc m k w :
  build_nodes l nodes acc = Ok m → m !! k = Some w →
  acc !! k = Some w ∨
  ∃ i n, nodes !! i = Some n ∧ w = CloudifyWorkflowNode__init__ OContext (l + i) n.
Proof.
  revert l acc. induction nodes as [|node rest IH]; intros l acc Hbuild Hw.
  - cbn in Hbuild. injection Hbuild as <-. by left.
  - cbn in Hbuild. destruct (raw_id node) as [k0|] eqn:Hk0; [|discriminate Hbuild].
    cbn in Hbuild. destruct (IH _ _ Hbuild Hw) as [Hacc|(i & n & Hi & ->)].
    + apply lookup_insert_Some in Hacc as [[-> <-]|[_ Hacc]].
      * right. exists 0, node. by rewrite Nat.add_0_r.
      * by left.
    + right. exists (S i), n. split; [exact Hi|]. f_equal. lia.
Qed.

(** C8. In a graph built from a plan whose node ids are distinct,
    [get_node] applied to the id of a node returns the wrapper of that very
    node, and applied to an id no node has it returns [None]; it returns
    for every id, there being no failure in it. *)
Theorem get_node_finds_every_node ctx plan wf :
  CloudifyWorkflowContext__init__ ctx plan = Ok wf →
  NoDup (raw_id <$> plan) →
  (∀ i n, plan !! i = Some n →
     ∃ k w, raw_id n = Some k ∧ get_node wf k = Some w ∧
            _node w = i ∧ w = CloudifyWorkflowNode__init__ OContext i n) ∧
  (∀ k, (∀ n, n ∈ plan → raw_id n ≠ Some k) → get_node wf k = None).
Proof.
  unfold CloudifyWorkflowContext__init__, get_node. intros Hinit Hdup.
  destruct (build_nodes 0 plan ∅) as [m|e] eqn:Hbuild; [|discriminate Hinit].
  cbn in Hinit. injection Hinit as <-. cbn [_nodes]. split.
  - intros i n Hi.
    destruct (build_nodes_ids _ _ _ _ Hbuild n) as [k Hk].
    { apply list_elem_of_lookup. by exists i. }
    exists k, (CloudifyWorkflowNode__init__ OContext i n).
    split; [exact Hk|]. split; [|by split].
    exact (build_nodes_present 0 plan ∅ m i n k Hdup Hbuild Hi Hk).
  - intros k Hk. rewrite (build_nodes_absent _ _ _ _ k Hbuild Hk).
    apply lookup_empty.
Qed.

Lemma get_node_finds_every_node_witness :
  get_node sample_wf "db" = Some (CloudifyWorkflowNode__init__ OContext 1 sample_db) ∧
  get_node sample_wf "missing" = None.
Proof.
  assert (NoDup (raw_id <$> sample_plan)) as Hdup.
  { refine (bool_decide_unpack (NoDup (raw_id <$> sample_plan)) _).
    vm_compute. exact I. }
  destruct (get_node_finds_every_node sample_ctx sample_plan sample_wf
    ltac:(vm_compute; reflexivity) Hdup) as [Hfound Habsent].
  split.
  - destruct (Hfound 1 sample_db eq_refl) as (k & w & Hk & Hget & _ & ->).
    injection Hk as <-. exact Hget.
  - apply Habsent. intros n Hin Hid.
    apply list_elem_of_In in Hin. cbn in Hin.
    destruct Hin as [<-|[<-|[]]]; discriminate Hid.
Defined.

(** C10. Every relationship wrapper the graph builds has the wrapper of its
    owning node as [ctx], not the workflow context; so calling
    [execute_relationship_operation] on it fails with an attribute error on
    [get_node], whatever the arguments, before anything is resolved or
    written. *)
Theorem graph_relationships_cannot_run ctx plan wf k w r :
  CloudifyWorkflowContext__init__ ctx plan = Ok wf →
  _nodes wf !! k = Some w →
  r ∈ _relationships w →
  rel_ctx r = ONode (_node w) ∧
  rel_ctx r ≠ OContext ∧
  ∀ tid operation run_on_source kwargs h,
    execute_relationship_operation wf r tid operation run_on_source kwargs h
    = (Raise (AttributeError "get_node"), h).
Proof.
  unfold CloudifyWorkflowContext__init__. intros Hinit Hw Hr.
  destruct (build_nodes 0 plan ∅) as [m|e] eqn:Hbuild; [|discriminate Hinit].
  cbn in Hinit. injection Hinit as <-. cbn [_nodes] in Hw.
  destruct (build_nodes_values _ _ _ _ _ _ Hbuild Hw) as [Hempty|(i & n & _ & ->)].
  { by rewrite lookup_empty in Hempty. }
  cbn [_relationships CloudifyWorkflowNode__init__] in Hr.
  apply elem_of_lookup_imap in Hr as (j & rel & -> & _).
  split; [reflexivity|]. split; [discriminate|].
  intros tid operation run_on_source kwargs h. reflexivity.
Qed.

Lemma graph_relationships_cannot_run_witness :
  execute_relationship_operation sample_wf
    (CloudifyWorkflowRelationship__init__ (ONode 0) (ORaw 0) (0, 0))
    "task-1" "link" true None sample_plan
  = (Raise (AttributeError "get_node"), sample_plan).
Proof.
  refine (proj2 (proj2 (graph_relationships_cannot_run sample_ctx sample_plan
    sample_wf "web" (CloudifyWorkflowNode__init__ OContext 0 sample_web)
    (CloudifyWorkflowRelationship__init__ (ONode 0) (ORaw 0) (0, 0)) _ _ _))
    "task-1" "link" true None sample_plan).
  - vm_compute. reflexivity.
  - reflexivity.
  - cbn. left.
Defined.

(** ** Relationships whose target is not in the graph *)




(** * Further properties of the code *)

(** ** The merger, whatever the reserved entries hold *)

(** [dict.update] on arguments that are not mappings: the empty list and
    the empty string add nothing, a list of pairs adds its pairs in order,
    a number cannot be iterated and a character is not a pair. *)
Example dict_update_sequences :
  dict_update (VDict {[ "a" := VInt 1 ]}) (VList []) = Ok (VDict {[ "a" := VInt 1 ]}) ∧
  dict_update (VDict {[ "a" := VInt 1 ]}) (VStr "") = Ok (VDict {[ "a" := VInt 1 ]}) ∧
  dict_update (VDict {[ "a" := VInt 1 ]})
    (VList [ VList [ VStr "a"; VInt 2 ]; VList [ VStr "a"; VInt 3 ] ])
    = Ok (VDict {[ "a" := VInt 3 ]}) ∧
  dict_update (VDict ∅) (VInt 0) = Raise (TypeError "object is not iterable") ∧
  dict_update (VDict ∅) (VStr "a")
    = Raise (ValueError "dictionary update sequence element has length other than 2") ∧
  dict_update (VList []) (VDict ∅) = Raise (AttributeError "update").
Proof. repeat split; vm_compute; reflexivity. Qed.


(** The step at the reserved key changes no other key. *)
Lemma _safe_update_step_runtime_others (r r1 : dict) v :
  _safe_update_step (Ok r) (cloudify_runtime, v) = Ok r1 →
  ∀ k, k ≠ cloudify_runtime → r1 !! k = r !! k.
Proof.
  unfold _safe_update_step. cbn [res_bind].
  rewrite decide_True by reflexivity.
  intros Hstep k Hk.
  destruct (r !! cloudify_runtime) as [w|] eqn:Hw.
  - destruct (dict_update _ v) as [merged'|e]; [|discriminate Hstep].
    cbn in Hstep. injection Hstep as <-. by rewrite lookup_insert_ne.
  - destruct (dict_update _ v) as [merged'|e]; [|discriminate Hstep].
    cbn in Hstep. injection Hstep as <-. by rewrite !lookup_insert_ne.
Qed.

Lemma foldl_safe_update_entries (l : list (string * value)) (r r' : dict) :
  NoDup l.*1 →
  foldl _safe_update_step (Ok r) l = Ok r' →
  ∀ k, k ≠ cloudify_runtime →
    r' !! k = match (list_to_map l : dict) !! k with
              | Some v => Some v
              | None => r !! k
              end ∧
    (is_Some ((list_to_map l : dict) !! k) → r !! k = None).
Proof.
  revert r. induction l as [|[k0 v0] l IH]; intros r Hdup Hfold k Hk.
  - cbn in Hfold. injection Hfold as <-.
    change (list_to_map [] : dict) with (∅ : dict). rewrite lookup_empty.
    split; [reflexivity|]. by intros [? ?].
  - apply NoDup_cons in Hdup as [Hk0 Hdup]. cbn [foldl] in Hfold.
    cbn [list_to_map foldr].
    assert ((list_to_map l : dict) !! k0 = None) as HLk0
      by (by apply not_elem_of_list_to_map_1).
    destruct (_safe_update_step (Ok r) (k0, v0)) as [r1|e] eqn:Hstep.
    2:{ by rewrite foldl_safe_update_Raise in Hfold. }
    destruct (IH r1 Hdup Hfold k Hk) as [Hlookup Hnone].
    destruct (decide (k0 = cloudify_runtime)) as [->|Hne].
    + rewrite lookup_insert_ne by done.
      rewrite <- (_safe_update_step_runtime_others r r1 v0 Hstep k Hk).
      by split.
    + rewrite _safe_update_step_other in Hstep by done.
      destruct (r !! k0) as [w|] eqn:Hrk0; [discriminate Hstep|].
      injection Hstep as <-.
      destruct (decide (k = k0)) as [->|Hkk].
      * rewrite lookup_insert_eq. rewrite HLk0, lookup_insert_eq in Hlookup.
        by split.
      * rewrite lookup_insert_ne by done.
        rewrite lookup_insert_ne in Hlookup, Hnone by done. by split.
Qed.

(** What a successful merge holds under a key other than the reserved one. *)
Lemma _safe_update_lookup (dict1 dict2 result : dict) k :
  _safe_update dict1 dict2 = Ok result →
  k ≠ cloudify_runtime →
  result !! k = match dict1 !! k with
                | Some v => Some v
                | None => dict2 !! k
                end ∧
  (is_Some (dict1 !! k) → dict2 !! k = None).
Proof.
  unfold _safe_update. intros Hfold Hk.
  pose proof (foldl_safe_update_entries _ _ _
                (NoDup_fst_map_to_list dict1) Hfold k Hk) as Hentries.
  by rewrite list_to_map_to_list in Hentries.
Qed.

(** X1. A merge that returns keeps every ordinary entry. Whenever
    [_safe_update] returns, the reserved entry of the declared properties
    being absent, a mapping, the empty string or a list of pairs (each a
    list of a string key and a value, or a string of two characters):
    every entry of either map under a key other than ['cloudify_runtime']
    is in the result with its value, the two maps share no such key, and
    the result has no such key of its own. Pairs that are not of these
    forms and yet accepted by [dict.update] are [NotModelled]. *)
Theorem _safe_update_keeps_entries (dict1 dict2 result : dict) :
  _safe_update dict1 dict2 = Ok result →
  (∀ k v, k ≠ cloudify_runtime → dict2 !! k = Some v → result !! k = Some v) ∧
  (∀ k v, k ≠ cloudify_runtime → dict1 !! k = Some v →
     result !! k = Some v ∧ dict2 !! k = None) ∧
  (∀ k, k ≠ cloudify_runtime → is_Some (result !! k) →
     is_Some (dict1 !! k) ∨ is_Some (dict2 !! k)).
Proof.
  intros Hmerge. split; [|split].
  - intros k v Hk Hv.
    destruct (_safe_update_lookup _ _ _ k Hmerge Hk) as [Hlookup Hnone].
    destruct (dict1 !! k) as [w|] eqn:Hw.
    + rewrite Hnone in Hv by (by eexists). discriminate Hv.
    + by rewrite Hlookup.
  - intros k v Hk Hv.
    destruct (_safe_update_lookup _ _ _ k Hmerge Hk) as [Hlookup Hnone].
    rewrite Hv in Hlookup, Hnone. split; [exact Hlookup|].
    apply Hnone. by eexists.
  - intros k Hk Hres.
    destruct (_safe_update_lookup _ _ _ k Hmerge Hk) as [Hlookup _].
    rewrite Hlookup in Hres. destruct (dict1 !! k); [left; by eexists | by right].
Qed.

Lemma _safe_update_keeps_entries_witness :
  ∃ result,
    _safe_update
      {[ "a" := VInt 1;
         "cloudify_runtime" := VList [ VList [ VStr "x"; VInt 3 ]; VStr "yz" ] ]}
      {[ "b" := VInt 2 ]} = Ok result ∧
    result !! "a" = Some (VInt 1) ∧ result !! "b" = Some (VInt 2).
Proof.
  assert (_safe_update
            {[ "a" := VInt 1;
               "cloudify_runtime" := VList [ VList [ VStr "x"; VInt 3 ]; VStr "yz" ] ]}
            {[ "b" := VInt 2 ]}
          = Ok {[ "a" := VInt 1; "b" := VInt 2;
                  "cloudify_runtime" :=
                    VDict {[ "x" := VInt 3; "y" := VStr "z" ]} ]}) as Hresult
    by (vm_compute; reflexivity).
  eexists. split; [exact Hresult|].
  destruct (_safe_update_keeps_entries _ _ _ Hresult) as (H2 & H1 & _).
  split.
  - apply (H1 "a"); [discriminate | reflexivity].
  - apply (H2 "b"); [discriminate | reflexivity].
Defined.

(** X2. The empty map is neutral for the merge: merging nothing into a
    map returns that map, and merging a map whose reserved entry, if any,
    is a mapping into the empty map returns it as well. *)
Theorem _safe_update_empty (d : dict) :
  runtime_is_mapping d →
  _safe_update ∅ d = Ok d ∧ _safe_update d ∅ = Ok d.
Proof.
  intros Hd. split.
  - unfold _safe_update. by rewrite map_to_list_empty.
  - unfold _safe_update. rewrite foldl_safe_update_Ok.
    + rewrite list_to_map_to_list. f_equal. apply map_eq. intros k.
      rewrite merged_lookup. rewrite (right_id_L ∅ (∪)).
      case_decide as Hk; [|reflexivity]. subst k.
      destruct (d !! cloudify_runtime) as [v|] eqn:Hv; [|by rewrite lookup_empty].
      destruct (Hd v Hv) as [r ->]. unfold runtime_of. rewrite lookup_empty.
      by rewrite (right_id_L ∅ (∪)).
    + apply NoDup_fst_map_to_list.
    + by apply map_to_list_runtime.
    + intros v Hv. by rewrite lookup_empty in Hv.
    + intros k v _ _. apply lookup_empty.
Qed.

Lemma _safe_update_empty_witness :
  _safe_update ∅ {[ "a" := VInt 1 ]} = Ok {[ "a" := VInt 1 ]} ∧
  _safe_update {[ "a" := VInt 1 ]} ∅ = Ok {[ "a" := VInt 1 ]}.
Proof.
  apply (_safe_update_empty {[ "a" := VInt 1 ]}).
  intros v Hv. vm_compute in Hv. discriminate Hv.
Defined.

(** ** The router: every way a call can end *)

Lemma attr_id_node l h raw :
  h !! l = Some raw → attr_id (ONode l) h = (Ok (of_opt (raw_id raw)), h).
Proof. intros Hraw. apply attr_id_Ok. eauto 10. Qed.

Lemma attr_name_node l h raw :
  h !! l = Some raw → attr_name (ONode l) h = (Ok (of_opt (raw_name raw)), h).
Proof. intros Hraw. apply attr_name_Ok. eauto 10. Qed.

Lemma attr_properties_node l h raw :
  h !! l = Some raw →
  attr_properties (ONode l) h = (Ok (default ∅ (raw_properties raw)), h).
Proof. intros Hraw. apply attr_properties_Ok. eauto 10. Qed.

(** The first half of the router, lines 173-194, once everything it looks
    up is there: what is left is the merge and the envelope. *)
Lemma _execute_operation_resolved self tid operation l operations related kwargs
    h raw table op plugin_name mapping q :
  h !! l = Some raw →
  read_ops operations h = (Ok table, h) →
  table !! operation = Some op →
  op_plugin op = Some plugin_name →
  op_operation op = Some mapping →
  select_task_queue self raw plugin_name = Ok q →
  _execute_operation self tid operation (ONode l) operations related kwargs h
  = match _safe_update (base_properties related op raw) (default ∅ kwargs) with
    | Raise e => (Raise e, store_after related op raw operations operation h)
    | Ok tk =>
        match related_raw related h with
        | Some rel =>
            (Ok (dispatched_task self tid operation plugin_name mapping q raw
                   (base_properties related op raw) tk rel),
             store_after related op raw operations operation h)
        | None =>
            (Raise match related with
                   | ONode _ => InvalidReference
                   | _ => AttributeError "properties"
                   end,
             store_after related op raw operations operation h)
        end
    end.
Proof.
  intros Hraw Hops Hop Hp Hm Hq. unfold _execute_operation.
  unfold bind at 1. cbn [attr__node ret].
  unfold bind at 1. rewrite Hops, Hop.
  unfold bind at 1. rewrite Hp. cbn [getfield lift].
  unfold bind at 1. rewrite Hm. cbn [getfield lift].
  unfold bind at 1. unfold deref at 1. rewrite Hraw.
  unfold bind at 1. rewrite Hq. cbn [lift].
  unfold bind at 1.
  change (match related with ONone => _ | _ => PropsFresh ∅ end)
    with (properties_ref_of related op).
  rewrite (resolve_operation_properties_eq _ _ _ _ _ _ _ Hraw).
  unfold bind at 1. unfold lift at 1.
  destruct (_safe_update (base_properties related op raw) (default ∅ kwargs))
    as [tk|e]; [|reflexivity].
  destruct (store_after_lookup related op raw operations operation h l raw Hraw)
    as (raw' & Hraw' & Hid' & Hname' & _).
  unfold bind at 1. rewrite (attr_id_node _ _ _ Hraw').
  unfold bind at 1. rewrite (attr_name_node _ _ _ Hraw').
  rewrite Hid', Hname'.
  destruct related as [| |l2| |]; cbn [related_raw store_after].
  - reflexivity.
  - reflexivity.
  - unfold bind at 1. unfold bind at 1.
    destruct (h !! l2) as [raw2|] eqn:Hraw2.
    + rewrite (attr_properties_node _ _ _ Hraw2).
      unfold bind at 1. rewrite (attr_id_node _ _ _ Hraw2). reflexivity.
    + cbn [attr_properties]. unfold bind at 1. unfold deref at 1.
      rewrite Hraw2. reflexivity.
  - reflexivity.
  - reflexivity.
Qed.

(** The no-op marker comes with the store as it was. *)
Lemma _execute_operation_NOP_store self tid operation node operations related
    kwargs h h' :
  _execute_operation self tid operation node operations related kwargs h
    = (Ok NOP, h') →
  ∃ l table, node = ONode l ∧ read_ops operations h = (Ok table, h) ∧
             table !! operation = None ∧ h' = h.
Proof.
  intros Hrun.
  destruct (_execute_operation_NOP _ _ _ _ _ _ _ _ _ Hrun) as (table & Hops & Hnone).
  destruct node as [| |l| |];
    try (unfold _execute_operation, bind in Hrun; cbn in Hrun; discriminate Hrun).
  rewrite (_execute_operation_undeclared _ _ _ _ _ _ _ _ table Hops Hnone) in Hrun.
  injection Hrun as <-. by exists l, table.
Qed.

(** A call for which everything resolves dispatches the task built from
    what was resolved. *)
Lemma _execute_operation_run self tid operation l operations related kwargs
    h raw table op plugin_name mapping q tk rel :
  h !! l = Some raw →
  read_ops operations h = (Ok table, h) →
  table !! operation = Some op →
  op_plugin op = Some plugin_name →
  op_operation op = Some mapping →
  select_task_queue self raw plugin_name = Ok q →
  related_raw related h = Some rel →
  _safe_update (base_properties related op raw) (default ∅ kwargs) = Ok tk →
  _execute_operation self tid operation (ONode l) operations related kwargs h
  = (Ok (dispatched_task self tid operation plugin_name mapping q raw
           (base_properties related op raw) tk rel),
     store_after related op raw operations operation h).
Proof.
  intros Hraw Hops Hop Hp Hm Hq Hrel Htk.
  rewrite (_execute_operation_resolved _ _ _ _ _ _ _ _ _ _ _ _ _ _
             Hraw Hops Hop Hp Hm Hq).
  by rewrite Htk, Hrel.
Qed.

(** Whatever the outcome, the store is either untouched or the one left by
    line 193. *)
Lemma _execute_operation_store_cases self tid operation node operations related
    kwargs h r h' :
  _execute_operation self tid operation node operations related kwargs h = (r, h') →
  h' = h ∨
  ∃ l raw table op,
    node = ONode l ∧ h !! l = Some raw ∧
    read_ops operations h = (Ok table, h) ∧ table !! operation = Some op ∧
    h' = store_after related op raw operations operation h.
Proof.
  intros Hrun.
  destruct node as [| |l| |];
    try (unfold _execute_operation, bind in Hrun; cbn in Hrun;
         injection Hrun as _ <-; by left).
  destruct (read_ops operations h) as [[table|e] h1] eqn:Hops.
  2:{ pose proof (read_ops_store Hops) as ->.
      unfold _execute_operation in Hrun. unfold bind at 1 in Hrun.
      cbn [attr__node ret] in Hrun. unfold bind at 1 in Hrun.
      rewrite Hops in Hrun. injection Hrun as _ <-. by left. }
  pose proof (read_ops_store Hops) as ->.
  destruct (table !! operation) as [op|] eqn:Hop.
  2:{ rewrite (_execute_operation_undeclared _ _ _ _ _ _ _ _ table Hops Hop) in Hrun.
      injection Hrun as _ <-. by left. }
  assert (∀ e, _execute_operation self tid operation (ONode l) operations related
                 kwargs h = (Raise e, h) → h' = h) as Hfail.
  { intros e Heq. rewrite Heq in Hrun. by injection Hrun as _ <-. }
  destruct (op_plugin op) as [p|] eqn:Hp.
  2:{ left. apply (Hfail (KeyError "plugin")).
      unfold _execute_operation. unfold bind at 1. cbn [attr__node ret].
      unfold bind at 1. rewrite Hops, Hop. unfold bind at 1. rewrite Hp.
      reflexivity. }
  destruct (op_operation op) as [m|] eqn:Hm.
  2:{ left. apply (Hfail (KeyError "operation")).
      unfold _execute_operation. unfold bind at 1. cbn [attr__node ret].
      unfold bind at 1. rewrite Hops, Hop. unfold bind at 1. rewrite Hp.
      cbn [getfield lift]. unfold bind at 1. rewrite Hm. reflexivity. }
  destruct (h !! l) as [raw|] eqn:Hraw.
  2:{ left. apply (Hfail InvalidReference).
      unfold _execute_operation. unfold bind at 1. cbn [attr__node ret].
      unfold bind at 1. rewrite Hops, Hop. unfold bind at 1. rewrite Hp.
      cbn [getfield lift]. unfold bind at 1. rewrite Hm. cbn [getfield lift].
      unfold bind at 1. unfold deref at 1. rewrite Hraw. reflexivity. }
  destruct (select_task_queue self raw p) as [q|e] eqn:Hq.
  2:{ left. apply (Hfail e).
      unfold _execute_operation. unfold bind at 1. cbn [attr__node ret].
      unfold bind at 1. rewrite Hops, Hop. unfold bind at 1. rewrite Hp.
      cbn [getfield lift]. unfold bind at 1. rewrite Hm. cbn [getfield lift].
      unfold bind at 1. unfold deref at 1. rewrite Hraw.
      unfold bind at 1. rewrite Hq. reflexivity. }
  right. exists l, raw, table, op.
  repeat (split; [first [reflexivity | assumption]|]).
  rewrite (_execute_operation_resolved _ _ _ _ _ _ _ _ _ _ _ _ _ _
             Hraw Hops Hop Hp Hm Hq) in Hrun.
  destruct (_safe_update _ _); [destruct (related_raw related h)|];
    by injection Hrun as _ <-.
Qed.

(** ** Operations run on the target of a relationship *)

(** X4. [execute_relationship_operation] with [run_on_source=False] never
    dispatches a task, whatever the relationship and the graph are: the
    related node it passes on is the relationship wrapper itself, which
    has no [properties]. The only result it can return is the no-op
    marker, for an operation the target side does not declare, and the
    graph is then untouched. *)
Theorem run_on_target_never_dispatches wf self tid operation kwargs h task h' :
  execute_relationship_operation wf self tid operation false kwargs h
    = (Ok task, h') →
  task = NOP ∧ h' = h.
Proof.
  unfold execute_relationship_operation.
  intros (u & h1 & Hctx & H)%bind_Ok.
  assert (h1 = h) as ->.
  { destruct (rel_ctx self); try discriminate Hctx. by injection Hctx as _ <-. }
  apply bind_Ok in H as (target & h1 & Htarget & H).
  assert (h1 = h) as ->.
  { unfold target_id in Htarget.
    apply bind_Ok in Htarget as (r & h2 & Hr & [_ ->]%ret_Ok).
    exact (deref_relationship_store Hr). }
  apply bind_Ok in H as (r & h1 & Hr & H).
  pose proof (deref_relationship_store Hr) as ->.
  destruct (_relationship self) as [l j]. cbn [fst snd] in H.
  destruct task as [|t cc tid'].
  - apply _execute_operation_NOP_store in H as (l0 & table & _ & _ & _ & ->).
    by split.
  - apply _execute_operation_task in H
      as (l0 & raw & table & op & p & m & q & tk & rel & _ & _ & _ & _ & _ & _ & _
          & Hrel & _).
    discriminate Hrel.
Qed.

Lemma run_on_target_never_dispatches_witness :
  ∃ task h',
    execute_relationship_operation sample_wf
      (CloudifyWorkflowRelationship__init__ OContext (ONode 0) (0, 0))
      "task-1" "link" false None sample_plan = (Ok task, h') ∧
    task = NOP ∧ h' = sample_plan.
Proof.
  assert (execute_relationship_operation sample_wf
            (CloudifyWorkflowRelationship__init__ OContext (ONode 0) (0, 0))
            "task-1" "link" false None sample_plan
          = (Ok NOP, sample_plan)) as Hrun
    by (vm_compute; reflexivity).
  eexists _, _. split; [exact Hrun|].
  exact (run_on_target_never_dispatches _ _ _ _ _ _ _ _ Hrun).
Defined.

(** ** Keys the router misses *)

Lemma _execute_operation_no_queue self tid operation l operations related kwargs
    h raw table op plugin_name mapping e :
  h !! l = Some raw →
  read_ops operations h = (Ok table, h) →
  table !! operation = Some op →
  op_plugin op = Some plugin_name →
  op_operation op = Some mapping →
  select_task_queue self raw plugin_name = Raise e →
  _execute_operation self tid operation (ONode l) operations related kwargs h
  = (Raise e, h).
Proof.
  intros Hraw Hops Hop Hp Hm Hq. unfold _execute_operation.
  unfold bind at 1. cbn [attr__node ret].
  unfold bind at 1. rewrite Hops, Hop.
  unfold bind at 1. rewrite Hp. cbn [getfield lift].
  unfold bind at 1. rewrite Hm. cbn [getfield lift].
  unfold bind at 1. unfold deref at 1. rewrite Hraw.
  unfold bind at 1. rewrite Hq. reflexivity.
Qed.

(** X5. For a declared operation on a node of the graph, a key the router
    needs and does not find makes the call raise [KeyError] for that very
    key, before anything is written to the graph: ['plugin'] and
    ['operation'] of the operation definition, ['plugins'] of the node, the
    plugin's name in the node's plugins, and the flags ['agent_plugin'] and,
    when the first is not ['true'], ['manager_plugin'] of the plugin. *)
Theorem missing_key_raises_before_any_write self tid operation l operations
    related kwargs h raw table op :
  h !! l = Some raw →
  read_ops operations h = (Ok table, h) →
  table !! operation = Some op →
  (op_plugin op = None →
     _execute_operation self tid operation (ONode l) operations related kwargs h
     = (Raise (KeyError "plugin"), h)) ∧
  (∀ p, op_plugin op = Some p → op_operation op = None →
     _execute_operation self tid operation (ONode l) operations related kwargs h
     = (Raise (KeyError "operation"), h)) ∧
  (∀ p m, op_plugin op = Some p → op_operation op = Some m →
     (raw_plugins raw = None →
        _execute_operation self tid operation (ONode l) operations related kwargs h
        = (Raise (KeyError "plugins"), h)) ∧
     (∀ plugins, raw_plugins raw = Some plugins → plugins !! p = None →
        _execute_operation self tid operation (ONode l) operations related kwargs h
        = (Raise (KeyError p), h)) ∧
     (∀ plugins plugin, raw_plugins raw = Some plugins →
        plugins !! p = Some plugin → plugin !! "agent_plugin" = None →
        _execute_operation self tid operation (ONode l) operations related kwargs h
        = (Raise (KeyError "agent_plugin"), h)) ∧
     (∀ plugins plugin flag, raw_plugins raw = Some plugins →
        plugins !! p = Some plugin → plugin !! "agent_plugin" = Some flag →
        flag ≠ VStr "true" → plugin !! "manager_plugin" = None →
        _execute_operation self tid operation (ONode l) operations related kwargs h
        = (Raise (KeyError "manager_plugin"), h))).
Proof.
  intros Hraw Hops Hop. split; [|split].
  - intros Hp. unfold _execute_operation.
    unfold bind at 1. cbn [attr__node ret].
    unfold bind at 1. rewrite Hops, Hop.
    unfold bind at 1. rewrite Hp. reflexivity.
  - intros p Hp Hm. unfold _execute_operation.
    unfold bind at 1. cbn [attr__node ret].
    unfold bind at 1. rewrite Hops, Hop.
    unfold bind at 1. rewrite Hp. cbn [getfield lift].
    unfold bind at 1. rewrite Hm. reflexivity.
  - intros p m Hp Hm. split; [|split; [|split]].
    + intros Hplugins.
      apply (_execute_operation_no_queue _ _ _ _ _ _ _ _ _ _ _ _ _ _
               Hraw Hops Hop Hp Hm).
      unfold select_task_queue. rewrite Hplugins. reflexivity.
    + intros plugins Hplugins Hnone.
      apply (_execute_operation_no_queue _ _ _ _ _ _ _ _ _ _ _ _ _ _
               Hraw Hops Hop Hp Hm).
      unfold select_task_queue, getitem. rewrite Hplugins. cbn [getfield res_bind].
      rewrite Hnone. reflexivity.
    + intros plugins plugin Hplugins Hplugin Hnone.
      apply (_execute_operation_no_queue _ _ _ _ _ _ _ _ _ _ _ _ _ _
               Hraw Hops Hop Hp Hm).
      unfold select_task_queue, getitem. rewrite Hplugins. cbn [getfield res_bind].
      rewrite Hplugin. cbn [res_bind]. rewrite Hnone. reflexivity.
    + intros plugins plugin flag Hplugins Hplugin Hflag Hne Hnone.
      apply (_execute_operation_no_queue _ _ _ _ _ _ _ _ _ _ _ _ _ _
               Hraw Hops Hop Hp Hm).
      unfold select_task_queue, getitem. rewrite Hplugins. cbn [getfield res_bind].
      rewrite Hplugin. cbn [res_bind]. rewrite Hflag. cbn [res_bind].
      rewrite (is_true_false _ Hne). rewrite Hnone. reflexivity.
Qed.

Lemma missing_key_raises_before_any_write_witness :
  let bare : raw_node :=
    {| raw_id := Some "n"; raw_name := None; raw_type := None;
       raw_properties := None; raw_plugins := None;
       raw_operations :=
         Some {[ "start" := {| op_plugin := Some "p"; op_operation := Some "m";
                               op_properties := Some ∅ |} ]};
       raw_relationships := None; raw_host_id := None |} in
  _execute_operation sample_wf "task-1" "start" (ONode 0) (OpsOfNode 0) ONone None
    [bare]
  = (Raise (KeyError "plugins"), [bare]).
Proof.
  intros bare.
  refine (proj1 (proj2 (proj2 (missing_key_raises_before_any_write sample_wf
    "task-1" "start" 0 (OpsOfNode 0) ONone None [bare] bare
    {[ "start" := {| op_plugin := Some "p"; op_operation := Some "m";
                     op_properties := Some ∅ |} ]}
    {| op_plugin := Some "p"; op_operation := Some "m"; op_properties := Some ∅ |}
    _ _ _)) "p" "m" _ _) _); reflexivity.
Defined.

(** ** What a node's [execute_operation] does to the graph *)

Lemma read_ops_node l h raw table :
  h !! l = Some raw → raw_operations raw = Some table →
  read_ops (OpsOfNode l) h = (Ok table, h).
Proof.
  intros Hraw Htable. cbn [read_ops]. unfold bind, deref.
  rewrite Hraw, Htable. reflexivity.
Qed.

Lemma execute_operation_eq wf self tid operation kwargs h raw table :
  node_ctx self = OContext →
  h !! _node self = Some raw →
  raw_operations raw = Some table →
  execute_operation wf self tid operation kwargs h
  = _execute_operation wf tid operation (ONode (_node self))
      (OpsOfNode (_node self)) ONone kwargs h.
Proof.
  intros Hctx Hraw Htable. unfold execute_operation.
  rewrite Hctx. unfold bind at 1. cbn [attr__execute_operation ret].
  unfold bind at 1. unfold deref at 1. rewrite Hraw.
  unfold bind at 1. rewrite Htable. reflexivity.
Qed.

(** A call that does not reach the router leaves the store alone. *)
Lemma execute_operation_cases wf self tid operation kwargs h r h' :
  execute_operation wf self tid operation kwargs h = (r, h') →
  (h' = h ∧ ∃ e, r = Raise e) ∨
  ∃ raw table,
    node_ctx self = OContext ∧ h !! _node self = Some raw ∧
    raw_operations raw = Some table ∧
    _execute_operation wf tid operation (ONode (_node self))
      (OpsOfNode (_node self)) ONone kwargs h = (r, h').
Proof.
  intros Hrun.
  destruct (node_ctx self) eqn:Hctx;
    try (left; unfold execute_operation in Hrun; rewrite Hctx in Hrun;
         unfold bind at 1 in Hrun; cbn in Hrun; injection Hrun as <- <-;
         split; [reflexivity | by eexists]).
  destruct (h !! _node self) as [raw|] eqn:Hraw.
  2:{ left. unfold execute_operation in Hrun. rewrite Hctx in Hrun.
      unfold bind at 1 in Hrun. cbn [attr__execute_operation ret] in Hrun.
      unfold bind at 1 in Hrun. unfold deref at 1 in Hrun. rewrite Hraw in Hrun.
      injection Hrun as <- <-. eauto. }
  destruct (raw_operations raw) as [table|] eqn:Htable.
  2:{ left. unfold execute_operation in Hrun. rewrite Hctx in Hrun.
      unfold bind at 1 in Hrun. cbn [attr__execute_operation ret] in Hrun.
      unfold bind at 1 in Hrun. unfold deref at 1 in Hrun. rewrite Hraw in Hrun.
      unfold bind at 1 in Hrun. rewrite Htable in Hrun.
      injection Hrun as <- <-. eauto. }
  right. exists raw, table.
  rewrite (execute_operation_eq _ _ _ _ _ _ _ _ Hctx Hraw Htable) in Hrun.
  repeat (split; [first [reflexivity | assumption]|]). exact Hrun.
Qed.

(** The store left by line 193 when a node's own operation declares
    properties. *)
Lemma store_after_node op raw l operation h d :
  op_properties op = Some d →
  store_after ONone op raw (OpsOfNode l) operation h
  = alter (set_node_operations
             (set_op_properties operation (<[cloudify_runtime := node_runtime raw]> d)))
          l h.
Proof. intros Hd. unfold store_after. rewrite Hd. reflexivity. Qed.

Lemma set_op_properties_lookup operation props (table : operations_table) o :
  set_op_properties operation props table !! o
  = if decide (o = operation) then
      (λ op, {| op_plugin := op_plugin op; op_operation := op_operation op;
                op_properties := Some props |}) <$> table !! o
    else table !! o.
Proof.
  unfold set_op_properties. case_decide as Ho.
  - subst o. apply lookup_alter_eq.
  - by apply lookup_alter_ne.
Qed.

Lemma set_op_properties_twice operation props (table : operations_table) :
  set_op_properties operation props (set_op_properties operation props table)
  = set_op_properties operation props table.
Proof.
  apply map_eq. intros o. rewrite !set_op_properties_lookup.
  case_decide; [|reflexivity]. by destruct (table !! o).
Qed.

Lemma set_node_operations_twice operation props raw :
  set_node_operations (set_op_properties operation props)
    (set_node_operations (set_op_properties operation props) raw)
  = set_node_operations (set_op_properties operation props) raw.
Proof.
  unfold set_node_operations. cbn. f_equal.
  destruct (raw_operations raw) as [table|]; [|reflexivity].
  cbn. f_equal. apply set_op_properties_twice.
Qed.

Lemma alter_twice (f : raw_node → raw_node) l (h : store) :
  (∀ x, f (f x) = f x) → alter f l (alter f l h) = alter f l h.
Proof.
  intros Hf. apply list_eq. intros i.
  destruct (decide (l = i)) as [<-|Hne].
  - rewrite !list_lookup_alter, !decide_True by reflexivity.
    destruct (h !! l); [cbn; by rewrite Hf | reflexivity].
  - by rewrite !list_lookup_alter_ne.
Qed.

Lemma lookup_alter_node (f : raw_node → raw_node) l (h : store) raw :
  h !! l = Some raw → alter f l h !! l = Some (f raw).
Proof.
  intros Hraw. rewrite list_lookup_alter, decide_True by reflexivity.
  apply fmap_Some. exists raw. split; [exact Hraw | reflexivity].
Qed.

Lemma declared_properties_written h l raw table operation props o :
  h !! l = Some raw → raw_operations raw = Some table →
  declared_properties
    (alter (set_node_operations (set_op_properties operation props)) l h) l o
  = if decide (o = operation) then (λ _, props) <$> table !! o
    else declared_properties h l o.
Proof.
  intros Hraw Htable. unfold declared_properties.
  rewrite (lookup_alter_node _ _ _ _ Hraw), Hraw. cbn. rewrite Htable. cbn.
  rewrite set_op_properties_lookup.
  case_decide; [|reflexivity]. by destruct (table !! o).
Qed.

(** X6. Whatever its outcome, a node's [execute_operation] changes
    nothing in the graph but the operation definition it is called for:
    every other node is as it was, the node itself keeps its id, name,
    type, properties, plugins, relationships and [host_id], and its other
    operation definitions are untouched. *)
Theorem execute_operation_frame wf self tid operation kwargs h r h' :
  execute_operation wf self tid operation kwargs h = (r, h') →
  length h' = length h ∧
  (∀ l, l ≠ _node self → h' !! l = h !! l) ∧
  (∀ raw, h !! _node self = Some raw →
     ∃ raw', h' !! _node self = Some raw' ∧
       raw_id raw' = raw_id raw ∧ raw_name raw' = raw_name raw ∧
       raw_type raw' = raw_type raw ∧
       raw_properties raw' = raw_properties raw ∧
       raw_plugins raw' = raw_plugins raw ∧
       raw_relationships raw' = raw_relationships raw ∧
       raw_host_id raw' = raw_host_id raw ∧
       ∀ o, o ≠ operation →
         default ∅ (raw_operations raw') !! o = default ∅ (raw_operations raw) !! o).
Proof.
  intros Hrun.
  assert (h' = h ∨
          ∃ props, h' = alter (set_node_operations
                                 (set_op_properties operation props)) (_node self) h)
    as [->|[props ->]].
  { apply execute_operation_cases in Hrun
      as [[-> _]|(raw & table & _ & Hraw & Htable & Hrun)]; [by left|].
    apply _execute_operation_store_cases in Hrun
      as [->|(l & raw0 & table0 & op & [= <-] & Hraw0 & _ & _ & ->)]; [by left|].
    unfold store_after. destruct (op_properties op) as [d|]; [|by left].
    right. by eexists. }
  - split; [reflexivity|]. split; [reflexivity|].
    intros raw Hraw. exists raw. by repeat split.
  - split; [apply length_alter|].
    split; [intros l Hl; by apply list_lookup_alter_ne|].
    intros raw Hraw. eexists.
    split; [exact (lookup_alter_node _ _ _ _ Hraw)|]. cbn.
    repeat (split; [reflexivity|]).
    intros o Ho. destruct (raw_operations raw) as [table|]; [|reflexivity].
    cbn. rewrite set_op_properties_lookup. by rewrite decide_False.
Qed.

Lemma execute_operation_frame_witness :
  ∃ task h',
    execute_operation sample_wf (CloudifyWorkflowNode__init__ OContext 0 sample_web)
      "task-1" "configure" None sample_plan = (Ok task, h') ∧
    h' !! 1 = Some sample_db ∧
    declared_properties h' 0 "start" = declared_properties sample_plan 0 "start".
Proof.
  assert (execute_operation sample_wf
            (CloudifyWorkflowNode__init__ OContext 0 sample_web)
            "task-1" "configure" None sample_plan
          = (Ok sample_configure_task, sample_plan_configured)) as Hrun
    by (vm_compute; reflexivity).
  destruct (execute_operation_frame _ _ _ _ _ _ _ _ Hrun) as (_ & Hothers & _).
  eexists _, _. split; [exact Hrun|]. split.
  - exact (Hothers 1 ltac:(discriminate)).
  - reflexivity.
Defined.

(** X7. When the merge of line 196 fails in a node's
    [execute_operation] for an operation that declares properties, the
    error is the call's error, and the write of line 193 has happened all
    the same: the graph now holds the node's runtime sub-map in the
    declared properties of the operation. *)
Theorem failed_merge_still_writes wf self tid operation kwargs h raw table op
    plugin_name mapping q d e :
  node_ctx self = OContext →
  h !! _node self = Some raw →
  raw_operations raw = Some table →
  table !! operation = Some op →
  op_plugin op = Some plugin_name →
  op_operation op = Some mapping →
  op_properties op = Some d →
  select_task_queue wf raw plugin_name = Ok q →
  _safe_update (<[cloudify_runtime := node_runtime raw]> d) (default ∅ kwargs)
    = Raise e →
  ∃ h', execute_operation wf self tid operation kwargs h = (Raise e, h') ∧
        declared_properties h (_node self) operation = Some d ∧
        declared_properties h' (_node self) operation
          = Some (<[cloudify_runtime := node_runtime raw]> d).
Proof.
  intros Hctx Hraw Htable Hop Hp Hm Hd Hq Hmerge.
  eexists. split; [|split].
  - rewrite (execute_operation_eq _ _ _ _ _ _ _ _ Hctx Hraw Htable).
    rewrite (_execute_operation_resolved _ _ _ _ _ _ _ _ _ _ _ _ _ _
               Hraw (read_ops_node _ _ _ _ Hraw Htable) Hop Hp Hm Hq).
    unfold base_properties. rewrite Hd, Hmerge.
    rewrite (store_after_node _ _ _ _ _ _ Hd). reflexivity.
  - unfold declared_properties. by rewrite Hraw, Htable, Hop.
  - rewrite (declared_properties_written _ _ _ _ _ _ _ Hraw Htable).
    rewrite decide_True by reflexivity. by rewrite Hop.
Qed.

Lemma failed_merge_still_writes_witness :
  ∃ h',
    execute_operation sample_wf (CloudifyWorkflowNode__init__ OContext 0 sample_web)
      "task-1" "configure" (Some {[ "a" := VInt 2 ]}) sample_plan
    = (Raise (collision "a"), h') ∧
    declared_properties sample_plan 0 "configure" = Some {[ "a" := VInt 1 ]} ∧
    declared_properties h' 0 "configure"
    = Some (<[cloudify_runtime := node_runtime sample_web]> {[ "a" := VInt 1 ]}).
Proof.
  refine (failed_merge_still_writes sample_wf
    (CloudifyWorkflowNode__init__ OContext 0 sample_web) "task-1" "configure"
    (Some {[ "a" := VInt 2 ]}) sample_plan sample_web
    (default ∅ (raw_operations sample_web))
    {| op_plugin := Some "deployer"; op_operation := Some "tasks.configure";
       op_properties := Some {[ "a" := VInt 1 ]} |}
    "deployer" "tasks.configure" (Some "dep1") {[ "a" := VInt 1 ]} (collision "a")
    _ _ _ _ _ _ _ _ _); vm_compute; reflexivity.
Defined.

(** X8. The write of line 193 is idempotent. Once a node's
    [execute_operation] has returned, the same call on the graph it left
    returns the same result for the same task id, returns for every other
    task id as well, and no longer changes the graph. *)
Theorem execute_operation_is_idempotent wf self tid operation kwargs h task h1 :
  execute_operation wf self tid operation kwargs h = (Ok task, h1) →
  execute_operation wf self tid operation kwargs h1 = (Ok task, h1) ∧
  ∀ tid2, ∃ task2,
    execute_operation wf self tid2 operation kwargs h1 = (Ok task2, h1).
Proof.
  intros Hrun.
  apply execute_operation_cases in Hrun
    as [[_ [e He]]|(raw & table & Hctx & Hraw & Htable & Hrun)]; [discriminate He|].
  destruct task as [|t cc tid'];
    [apply _execute_operation_NOP_store in Hrun
       as (l & table0 & _ & Hops & Hnone & ->)
    |apply _execute_operation_task in Hrun
       as (l & raw0 & table0 & op & p & m & q & tk & rel & [= <-] & Hraw0 & Hops
           & Hop & Hp & Hm & Hq & Hrel & Htk & -> & -> & -> & ->)].
  - assert (∀ tid2, execute_operation wf self tid2 operation kwargs h = (Ok NOP, h))
      as Hagain.
    { intros tid2. rewrite (execute_operation_eq _ _ _ _ _ _ _ _ Hctx Hraw Htable).
      exact (_execute_operation_undeclared _ _ _ _ _ _ _ _ table0 Hops Hnone). }
    split; [apply Hagain | intros tid2; eexists; apply Hagain].
  - assert (raw0 = raw) as -> by (apply (inj Some); by rewrite <- Hraw0, <- Hraw).
    rewrite (read_ops_node _ _ _ _ Hraw Htable) in Hops. injection Hops as <-.
    injection Hrel as <-.
    destruct (op_properties op) as [d|] eqn:Hd.
    + set (props := <[cloudify_runtime := node_runtime raw]> d).
      set (F := set_node_operations (set_op_properties operation props)).
      assert (store_after ONone op raw (OpsOfNode (_node self)) operation h
              = alter F (_node self) h) as Hstore
        by exact (store_after_node _ _ _ _ _ _ Hd).
      assert (base_properties ONone op raw = props) as Hbase
        by (unfold base_properties; by rewrite Hd).
      rewrite Hstore, Hbase in *.
      set (op1 := {| op_plugin := op_plugin op; op_operation := op_operation op;
                     op_properties := Some props |}).
      assert (alter F (_node self) h !! _node self = Some (F raw)) as Hraw1
        by exact (lookup_alter_node _ _ _ _ Hraw).
      assert (raw_operations (F raw) = Some (set_op_properties operation props table))
        as Htable1 by (cbn; by rewrite Htable).
      assert (set_op_properties operation props table !! operation = Some op1)
        as Hop1.
      { rewrite set_op_properties_lookup, decide_True by reflexivity.
        by rewrite Hop. }
      assert (base_properties ONone op1 (F raw) = props) as Hbase1.
      { unfold base_properties. cbn [op_properties op1].
        change (node_runtime (F raw)) with (node_runtime raw).
        apply insert_insert_eq. }
      assert (store_after ONone op1 (F raw) (OpsOfNode (_node self)) operation
                (alter F (_node self) h) = alter F (_node self) h) as Hstore1.
      { rewrite (store_after_node op1 (F raw) _ _ _ props eq_refl).
        change (node_runtime (F raw)) with (node_runtime raw).
        fold props in Hbase1 |- *.
        replace (<[cloudify_runtime := node_runtime raw]> props) with props
          by (symmetry; apply insert_insert_eq).
        apply alter_twice. intros x. apply set_node_operations_twice. }
      assert (∀ tid2,
        execute_operation wf self tid2 operation kwargs (alter F (_node self) h)
        = (Ok (dispatched_task wf tid2 operation p m q raw props tk None),
           alter F (_node self) h)) as Hagain.
      { intros tid2.
        rewrite (execute_operation_eq _ _ _ _ _ _ _ _ Hctx Hraw1 Htable1).
        rewrite (_execute_operation_run wf tid2 operation (_node self)
                   (OpsOfNode (_node self)) ONone kwargs (alter F (_node self) h)
                   (F raw) (set_op_properties operation props table) op1 p m q tk
                   None Hraw1 (read_ops_node _ _ _ _ Hraw1 Htable1) Hop1 Hp Hm Hq
                   eq_refl ltac:(by rewrite Hbase1)).
        rewrite Hbase1, Hstore1. reflexivity. }
      split; [exact (Hagain tid) | intros tid2; eexists; apply Hagain].
    + assert (store_after ONone op raw (OpsOfNode (_node self)) operation h = h)
        as Hstore by (unfold store_after; by rewrite Hd).
      rewrite Hstore.
      assert (∀ tid2,
        execute_operation wf self tid2 operation kwargs h
        = (Ok (dispatched_task wf tid2 operation p m q raw
                 (base_properties ONone op raw) tk None), h)) as Hagain.
      { intros tid2.
        rewrite (execute_operation_eq _ _ _ _ _ _ _ _ Hctx Hraw Htable).
        rewrite (_execute_operation_run wf tid2 operation (_node self)
                   (OpsOfNode (_node self)) ONone kwargs h raw table op p m q tk
                   None Hraw (read_ops_node _ _ _ _ Hraw Htable) Hop Hp Hm Hq
                   eq_refl Htk).
        by rewrite Hstore. }
      split; [exact (Hagain tid) | intros tid2; eexists; apply Hagain].
Qed.

Lemma execute_operation_is_idempotent_witness :
  execute_operation sample_wf (CloudifyWorkflowNode__init__ OContext 0 sample_web)
    "task-1" "configure" None sample_plan_configured
  = (Ok sample_configure_task, sample_plan_configured).
Proof.
  assert (execute_operation sample_wf
            (CloudifyWorkflowNode__init__ OContext 0 sample_web)
            "task-1" "configure" None sample_plan
          = (Ok sample_configure_task, sample_plan_configured)) as Hrun
    by (vm_compute; reflexivity).
  exact (proj1 (execute_operation_is_idempotent _ _ _ _ _ _ _ _ Hrun)).
Defined.

(** X9. A node's [execute_operation] that returns has stored the node's
    runtime sub-map under ['cloudify_runtime'] in the properties the
    operation definition declares, if it declares any; so the graph is
    changed by every such call whose declared properties did not hold that
    very entry already. *)
Theorem execute_operation_stores_runtime wf self tid operation kwargs h task h' raw :
  execute_operation wf self tid operation kwargs h = (Ok task, h') →
  h !! _node self = Some raw →
  declared_properties h' (_node self) operation
    = (λ d : dict, <[cloudify_runtime := node_runtime raw]> d)
        <$> declared_properties h (_node self) operation ∧
  (∀ d, declared_properties h (_node self) operation = Some d →
        d !! cloudify_runtime ≠ Some (node_runtime raw) → h' ≠ h).
Proof.
  intros Hrun Hraw.
  assert (declared_properties h' (_node self) operation
          = (λ d : dict, <[cloudify_runtime := node_runtime raw]> d)
              <$> declared_properties h (_node self) operation) as Hwritten.
  { apply execute_operation_cases in Hrun
      as [[_ [e He]]|(raw0 & table & Hctx & Hraw0 & Htable & Hrun)];
      [discriminate He|].
    assert (raw0 = raw) as -> by (apply (inj Some); by rewrite <- Hraw0, <- Hraw).
    assert (declared_properties h (_node self) operation
            = table !! operation ≫= op_properties) as Hdeclared.
    { unfold declared_properties. rewrite Hraw, Htable.
      by destruct (table !! operation). }
    destruct task as [|t cc tid'].
    - apply _execute_operation_NOP_store in Hrun
        as (l & table0 & _ & Hops & Hnone & ->).
      rewrite (read_ops_node _ _ _ _ Hraw Htable) in Hops. injection Hops as <-.
      rewrite Hdeclared, Hnone. reflexivity.
    - apply _execute_operation_task in Hrun
        as (l & raw0 & table0 & op & p & m & q & tk & rel & [= <-] & Hraw0' & Hops
            & Hop & _ & _ & _ & _ & _ & -> & _).
      assert (raw0 = raw) as -> by (apply (inj Some); by rewrite <- Hraw0', <- Hraw).
      rewrite (read_ops_node _ _ _ _ Hraw Htable) in Hops. injection Hops as <-.
      destruct (op_properties op) as [d|] eqn:Hd.
      + rewrite (store_after_node _ _ _ _ _ _ Hd).
        rewrite (declared_properties_written _ _ _ _ _ _ _ Hraw Htable).
        rewrite decide_True by reflexivity.
        rewrite Hdeclared, Hop. cbn [mbind option_bind]. by rewrite Hd.
      + unfold store_after. rewrite Hd.
        rewrite Hdeclared, Hop. cbn [mbind option_bind]. by rewrite Hd. }
  split; [exact Hwritten|].
  intros d Hd Hne ->. rewrite Hd in Hwritten. injection Hwritten as Heq.
  apply Hne. rewrite Heq at 1. apply lookup_insert_eq.
Qed.

Lemma execute_operation_stores_runtime_witness :
  declared_properties sample_plan_configured 0 "configure"
  = Some (<[cloudify_runtime := node_runtime sample_web]> {[ "a" := VInt 1 ]}) ∧
  sample_plan_configured ≠ sample_plan.
Proof.
  assert (execute_operation sample_wf
            (CloudifyWorkflowNode__init__ OContext 0 sample_web)
            "task-1" "configure" None sample_plan
          = (Ok sample_configure_task, sample_plan_configured)) as Hrun
    by (vm_compute; reflexivity).
  destruct (execute_operation_stores_runtime _ _ _ _ _ _ _ _ sample_web Hrun eq_refl)
    as [Hwritten Hchanged].
  split; [exact Hwritten|].
  apply (Hchanged {[ "a" := VInt 1 ]}); [reflexivity | discriminate].
Defined.

(** ** What a dispatched task carries *)

(** X10. The kwargs of a dispatched task hold the envelope under
    ['__cloudify_context'] and the acting node's id under
    ['__cloudify_id'], whatever the caller passed under these keys; every
    other entry of the caller's kwargs and of the base properties, the
    reserved ['cloudify_runtime'] apart, reaches the task unchanged. *)
Theorem dispatched_kwargs self tid operation node operations related kwargs
    h t cc tid' h' :
  _execute_operation self tid operation node operations related kwargs h
    = (Ok (RemoteWorkflowTask t cc tid'), h') →
  ∃ l raw table op,
    node = ONode l ∧ h !! l = Some raw ∧
    read_ops operations h = (Ok table, h) ∧ table !! operation = Some op ∧
    subtask_kwargs t !! "__cloudify_context" = Some (VDict cc) ∧
    subtask_kwargs t !! "__cloudify_id" = Some (of_opt (raw_id raw)) ∧
    ∀ k v, k ≠ cloudify_runtime → k ≠ "__cloudify_context" → k ≠ "__cloudify_id" →
      default ∅ kwargs !! k = Some v ∨ base_properties related op raw !! k = Some v →
      subtask_kwargs t !! k = Some v.
Proof.
  intros Hrun.
  apply _execute_operation_task in Hrun
    as (l & raw & table & op & p & m & q & tk & rel & -> & Hraw & Hops & Hop & _ & _
        & _ & _ & Htk & _ & _ & _ & ->).
  exists l, raw, table, op. cbn [subtask_kwargs].
  split; [reflexivity|]. split; [exact Hraw|].
  split; [exact Hops|]. split; [exact Hop|].
  split; [apply lookup_insert_eq|].
  split; [rewrite lookup_insert_ne by done; apply lookup_insert_eq|].
  intros k v Hk Hcontext Hid Hv.
  rewrite !lookup_insert_ne by done.
  destruct (_safe_update_lookup _ _ _ k Htk Hk) as [Hlookup Hnone].
  rewrite Hlookup. destruct Hv as [Hv|Hv].
  - destruct (base_properties related op raw !! k) as [w|] eqn:Hw; [|exact Hv].
    rewrite Hnone in Hv by (by eexists). discriminate Hv.
  - by rewrite Hv.
Qed.

Lemma dispatched_kwargs_witness :
  ∃ t cc,
    _execute_operation sample_wf "task-1" "start" (ONode 0) (OpsOfNode 0) ONone
      (Some {[ "x" := VInt 7; "__cloudify_id" := VStr "forged" ]}) sample_plan
    = (Ok (RemoteWorkflowTask t cc "task-1"), sample_plan) ∧
    subtask_kwargs t !! "__cloudify_id" = Some (VStr "web") ∧
    subtask_kwargs t !! "x" = Some (VInt 7) ∧
    subtask_kwargs t !! "p" = Some (VInt 1).
Proof.
  assert (_execute_operation sample_wf "task-1" "start" (ONode 0) (OpsOfNode 0) ONone
            (Some {[ "x" := VInt 7; "__cloudify_id" := VStr "forged" ]}) sample_plan
          = (Ok (dispatched_task sample_wf "task-1" "start" "agent_installer"
                   "tasks.start" (Some "h1") sample_web
                   {[ "p" := VInt 1; "cloudify_runtime" := VDict sample_runtime ]}
                   {[ "p" := VInt 1; "x" := VInt 7;
                      "__cloudify_id" := VStr "forged";
                      "cloudify_runtime" := VDict sample_runtime ]}
                   None), sample_plan)) as Hrun
    by (vm_compute; reflexivity).
  destruct (dispatched_kwargs _ _ _ _ _ _ _ _ _ _ _ _ Hrun)
    as (l & raw & table & op & Hnode & Hraw & Hops & Hop & _ & Hid & Hpass).
  injection Hnode as <-. injection Hraw as <-.
  injection Hops as <-. injection Hop as <-.
  eexists _, _. split; [exact Hrun|]. split; [exact Hid|]. split.
  - apply Hpass; [discriminate..|]. left. reflexivity.
  - apply Hpass; [discriminate..|]. right. reflexivity.
Defined.

(** X11. The envelope of a dispatched task identifies the task and the
    node: it holds the task id the task is returned with, the task name
    [plugin.mapping] the task is sent under, the workflow's blueprint,
    deployment, execution and workflow ids, the acting node's id and name,
    the plugin and the operation name as it was invoked; the node context
    overrides none of the task's own entries. *)
Theorem envelope_identifies_the_task self tid operation node operations related
    kwargs h t cc tid' h' :
  _execute_operation self tid operation node operations related kwargs h
    = (Ok (RemoteWorkflowTask t cc tid'), h') →
  tid' = tid ∧
  cc !! "task_id" = Some (VStr tid) ∧
  cc !! "task_name" = Some (VStr (subtask_name t)) ∧
  cc !! "blueprint_id" = Some (of_opt (blueprint_id self)) ∧
  cc !! "deployment_id" = Some (of_opt (deployment_id self)) ∧
  cc !! "execution_id" = Some (of_opt (execution_id self)) ∧
  cc !! "workflow_id" = Some (of_opt (workflow_id self)) ∧
  cc !! "operation" = Some (VStr operation) ∧
  subtask_immutable t = true ∧
  ∃ l raw table op plugin_name mapping,
    node = ONode l ∧ h !! l = Some raw ∧
    read_ops operations h = (Ok table, h) ∧ table !! operation = Some op ∧
    op_plugin op = Some plugin_name ∧ op_operation op = Some mapping ∧
    subtask_name t = plugin_name ++ "." ++ mapping ∧
    cc !! "plugin" = Some (VStr plugin_name) ∧
    cc !! "node_id" = Some (of_opt (raw_id raw)) ∧
    cc !! "node_name" = Some (of_opt (raw_name raw)).
Proof.
  intros Hrun.
  apply _execute_operation_task in Hrun
    as (l & raw & table & op & p & m & q & tk & rel & -> & Hraw & Hops & Hop & Hp
        & Hm & _ & _ & _ & _ & -> & -> & ->).
  cbn [subtask_name subtask_immutable].
  split; [reflexivity|].
  repeat (split; [by destruct rel|]).
  exists l, raw, table, op, p, m.
  repeat (split; [first [reflexivity | assumption]|]).
  split; [|split]; by destruct rel.
Qed.

Lemma envelope_identifies_the_task_witness :
  ∃ t cc,
    sample_link_task = RemoteWorkflowTask t cc "task-1" ∧
    cc !! "task_name" = Some (VStr "notifier.rel.link") ∧
    cc !! "deployment_id" = Some (VStr "dep1").
Proof.
  assert (_execute_operation sample_wf "task-1" "link" (ONode 0)
            (OpsOfRelationship 0 0 true) (ONode 1) None sample_plan
          = (Ok sample_link_task, sample_plan)) as Hrun
    by (vm_compute; reflexivity).
  destruct (envelope_identifies_the_task sample_wf "task-1" "link" (ONode 0)
    (OpsOfRelationship 0 0 true) (ONode 1) None sample_plan _ _ "task-1" sample_plan
    Hrun) as (_ & _ & Hname & _ & Hdeployment & _).
  eexists _, _. split; [reflexivity|]. split; [exact Hname | exact Hdeployment].
Defined.

(** ** Relationships bound to the workflow context *)

(** X12. A missing operations table is an error for a node and an empty
    table for a relationship. [execute_operation] on a node without
    ['operations'] raises [KeyError]. For a relationship wrapper whose
    [ctx] is the workflow context, an operation run on the source, the
    wrapper's [node] being a node wrapper, yields the no-op marker when the
    relationship has no ['source_operations'], and so does an operation
    run on the target, the target being in the graph, when it has no
    ['target_operations']. The graph is untouched in each case. (A wrapper
    the graph builds has its node as [ctx], and fails before that.) *)
Theorem missing_operations_table wf tid operation kwargs h :
  (∀ self raw,
     node_ctx self = OContext → h !! _node self = Some raw →
     raw_operations raw = None →
     execute_operation wf self tid operation kwargs h
     = (Raise (KeyError "operations"), h)) ∧
  (∀ self r l,
     rel_ctx self = OContext → rel_node self = ONode l →
     deref_relationship (_relationship self) h = (Ok r, h) →
     rel_source_operations r = None →
     execute_relationship_operation wf self tid operation true kwargs h
     = (Ok NOP, h)) ∧
  (∀ self r target w,
     rel_ctx self = OContext →
     deref_relationship (_relationship self) h = (Ok r, h) →
     rel_target_id r = Some target → get_node wf target = Some w →
     rel_target_operations r = None →
     execute_relationship_operation wf self tid operation false kwargs h
     = (Ok NOP, h)).
Proof.
  split; [|split].
  - intros self raw Hctx Hraw Hnone. unfold execute_operation.
    rewrite Hctx. unfold bind at 1. cbn [attr__execute_operation ret].
    unfold bind at 1. unfold deref at 1. rewrite Hraw.
    unfold bind at 1. rewrite Hnone. reflexivity.
  - intros self r l Hctx Hnode Hderef Hnone.
    rewrite (execute_relationship_operation_eq _ _ _ _ _ _ _ _ Hctx Hderef).
    cbv zeta. rewrite Hnode, Hnone.
    apply (_execute_operation_undeclared _ _ _ _ _ _ _ _ ∅);
      [reflexivity | apply lookup_empty].
  - intros self r target w Hctx Hderef Htarget Hw Hnone.
    rewrite (execute_relationship_operation_eq _ _ _ _ _ _ _ _ Hctx Hderef).
    cbv zeta. rewrite Htarget. cbn [mbind option_bind]. rewrite Hw, Hnone.
    apply (_execute_operation_undeclared _ _ _ _ _ _ _ _ ∅);
      [reflexivity | apply lookup_empty].
Qed.

Lemma missing_operations_table_witness :
  let bare : raw_node :=
    {| raw_id := Some "n"; raw_name := None; raw_type := None;
       raw_properties := None; raw_plugins := None; raw_operations := None;
       raw_relationships :=
         Some [ {| rel_target_id := Some "db"; rel_source_operations := None;
                   rel_target_operations := None |} ];
       raw_host_id := None |} in
  execute_operation sample_wf (CloudifyWorkflowNode__init__ OContext 0 bare)
    "task-1" "start" None [bare; sample_db]
  = (Raise (KeyError "operations"), [bare; sample_db]) ∧
  execute_relationship_operation sample_wf
    (CloudifyWorkflowRelationship__init__ OContext (ONode 0) (0, 0))
    "task-1" "link" true None [bare; sample_db]
  = (Ok NOP, [bare; sample_db]).
Proof.
  intros bare.
  destruct (missing_operations_table sample_wf "task-1" "start" None
              [bare; sample_db]) as (Hnode & _).
  destruct (missing_operations_table sample_wf "task-1" "link" None
              [bare; sample_db]) as (_ & Hsource & _).
  split.
  - apply (Hnode _ bare); reflexivity.
  - apply (Hsource _ {| rel_target_id := Some "db"; rel_source_operations := None;
                        rel_target_operations := None |} 0); reflexivity.
Defined.

(** X13. When a relationship bound to the workflow context has its
    target in the graph, an operation run on its source that dispatches a
    task leaves the graph untouched and names the target in the envelope:
    the ['related'] block holds the target's id and the target's
    properties without their ['cloudify_runtime'] entry. *)
Theorem run_on_source_relates_the_target wf self tid operation kwargs h r target w
    t cc tid' h' :
  rel_ctx self = OContext →
  deref_relationship (_relationship self) h = (Ok r, h) →
  rel_target_id r = Some target →
  get_node wf target = Some w →
  execute_relationship_operation wf self tid operation true kwargs h
    = (Ok (RemoteWorkflowTask t cc tid'), h') →
  h' = h ∧
  ∃ l raw raw_target,
    rel_node self = ONode l ∧ h !! l = Some raw ∧
    h !! _node w = Some raw_target ∧
    cc !! "node_id" = Some (of_opt (raw_id raw)) ∧
    cc !! "related"
      = Some (VDict {[ "node_id" := of_opt (raw_id raw_target);
                       "node_properties" :=
                         VDict (delete cloudify_runtime
                                  (default ∅ (raw_properties raw_target))) ]}).
Proof.
  intros Hctx Hderef Htarget Hw Hrun.
  rewrite (execute_relationship_operation_eq _ _ _ _ _ _ _ _ Hctx Hderef) in Hrun.
  cbv zeta in Hrun. rewrite Htarget in Hrun. cbn [mbind option_bind] in Hrun.
  rewrite Hw in Hrun.
  assert (h' = h) as ->.
  { eapply _execute_operation_store; [exact Hrun|]. left. discriminate. }
  split; [reflexivity|].
  apply _execute_operation_task in Hrun
    as (l & raw & table & op & p & m & q & tk & rel & Hnode & Hraw & _ & _ & _ & _
        & _ & Hrel & _ & _ & _ & -> & _).
  cbn [related_raw] in Hrel.
  destruct (h !! _node w) as [raw_target|] eqn:Hraw_target; [|discriminate Hrel].
  injection Hrel as <-.
  exists l, raw, raw_target.
  split; [exact Hnode|]. split; [exact Hraw|]. split; [reflexivity|].
  split; reflexivity.
Qed.

Lemma run_on_source_relates_the_target_witness :
  ∃ t cc,
    sample_link_task = RemoteWorkflowTask t cc "task-1" ∧
    cc !! "related"
      = Some (VDict {[ "node_id" := VStr "db";
                       "node_properties" := VDict {[ "q" := VInt 2 ]} ]}).
Proof.
  assert (execute_relationship_operation sample_wf
            (CloudifyWorkflowRelationship__init__ OContext (ONode 0) (0, 0))
            "task-1" "link" true None sample_plan
          = (Ok sample_link_task, sample_plan)) as Hrun
    by (vm_compute; reflexivity).
  destruct (run_on_source_relates_the_target sample_wf
    (CloudifyWorkflowRelationship__init__ OContext (ONode 0) (0, 0))
    "task-1" "link" None sample_plan
    {| rel_target_id := Some "db";
       rel_source_operations := Some {[ "link" := sample_link ]};
       rel_target_operations := Some {[ "unlink" := sample_link ]} |}
    "db" (CloudifyWorkflowNode__init__ OContext 1 sample_db) _ _ "task-1" sample_plan
    eq_refl eq_refl eq_refl eq_refl Hrun)
    as (_ & l & raw & raw_target & _ & _ & Htarget & _ & Hrelated).
  injection Htarget as <-.
  eexists _, _. split; [reflexivity|]. exact Hrelated.
Defined.

(** With a related node, no outcome of the router touches the store. *)
Lemma _execute_operation_related_store self tid operation node operations related
    kwargs h r h' :
  related ≠ ONone →
  _execute_operation self tid operation node operations related kwargs h = (r, h') →
  h' = h.
Proof.
  intros Hrelated Hrun.
  apply _execute_operation_store_cases in Hrun
    as [->|(l & raw & table & op & _ & _ & _ & _ & ->)]; [reflexivity|].
  by apply store_after_related.
Qed.

(** X14. A call of [execute_relationship_operation] can change the graph
    in one case only: run on the source of a relationship whose target is
    not in the graph. Run on the target, or run on the source with the
    target in the graph, it leaves the graph as it was, whatever its
    outcome. *)
Theorem relationship_operation_store wf self tid operation run_on_source kwargs
    h res h' :
  execute_relationship_operation wf self tid operation run_on_source kwargs h
    = (res, h') →
  (run_on_source = false ∨
   ∀ r, deref_relationship (_relationship self) h = (Ok r, h) →
        is_Some (rel_target_id r ≫= get_node wf)) →
  h' = h.
Proof.
  intros Hrun Hcase.
  destruct (rel_ctx self) eqn:Hctx;
    try (unfold execute_relationship_operation in Hrun; rewrite Hctx in Hrun;
         unfold bind at 1 in Hrun; cbn in Hrun; by injection Hrun as _ <-).
  destruct (deref_relationship (_relationship self) h) as [[r|e] h1] eqn:Hderef.
  2:{ pose proof (deref_relationship_store Hderef) as ->.
      unfold execute_relationship_operation in Hrun. rewrite Hctx in Hrun.
      unfold bind at 1 in Hrun. cbn [attr_get_node ret] in Hrun.
      unfold bind at 1 in Hrun. unfold target_id in Hrun.
      unfold bind at 1 in Hrun. rewrite Hderef in Hrun.
      by injection Hrun as _ <-. }
  pose proof (deref_relationship_store Hderef) as ->.
  rewrite (execute_relationship_operation_eq _ _ _ _ _ _ _ _ Hctx Hderef) in Hrun.
  cbv zeta in Hrun. destruct run_on_source.
  - destruct Hcase as [Hfalse|Hpresent]; [discriminate Hfalse|].
    destruct (Hpresent r eq_refl) as [w Htarget].
    rewrite Htarget in Hrun.
    by apply _execute_operation_related_store in Hrun.
  - by apply _execute_operation_related_store in Hrun.
Qed.

Lemma relationship_operation_store_witness :
  ∃ res h',
    execute_relationship_operation sample_wf
      (CloudifyWorkflowRelationship__init__ OContext (ONode 0) (0, 0))
      "task-1" "unlink" false (Some {[ "x" := VInt 1 ]}) sample_plan = (res, h') ∧
    h' = sample_plan.
Proof.
  assert (execute_relationship_operation sample_wf
            (CloudifyWorkflowRelationship__init__ OContext (ONode 0) (0, 0))
            "task-1" "unlink" false (Some {[ "x" := VInt 1 ]}) sample_plan
          = (Raise (AttributeError "properties"), sample_plan)) as Hrun
    by (vm_compute; reflexivity).
  eexists _, _. split; [exact Hrun|].
  exact (relationship_operation_store _ _ _ _ _ _ _ _ _ Hrun (or_introl eq_refl)).
Defined.

(** ** The node graph, without assuming distinct ids *)

(** An id under which nothing is found is the id of no node. *)
Lemma build_nodes_None l plan acc m k :
  build_nodes l plan acc = Ok m → m !! k = None →
  acc !! k = None ∧ ∀ n, n ∈ plan → raw_id n ≠ Some k.
Proof.
  revert l acc. induction plan as [|node rest IH]; intros l acc Hbuild Hk.
  - cbn in Hbuild. injection Hbuild as <-. split; [exact Hk|].
    intros n Hin. by apply elem_of_nil in Hin.
  - cbn in Hbuild. destruct (raw_id node) as [k0|] eqn:Hk0; [|discriminate Hbuild].
    cbn in Hbuild. destruct (IH _ _ Hbuild Hk) as [Hacc Hrest].
    apply lookup_insert_None in Hacc as [Hacc Hne].
    split; [exact Hacc|]. intros n Hin.
    apply elem_of_cons in Hin as [->|Hin]; [|by apply Hrest].
    rewrite Hk0. by intros [= ->].
Qed.

(** What is found under an id is the wrapper of the last node with it. *)
Lemma build_nodes_lookup l plan acc m k w :
  build_nodes l plan acc = Ok m → m !! k = Some w →
  (acc !! k = Some w ∧ ∀ n, n ∈ plan → raw_id n ≠ Some k) ∨
  ∃ i n, plan !! i = Some n ∧ raw_id n = Some k ∧
         w = CloudifyWorkflowNode__init__ OContext (l + i) n ∧
         ∀ j n', i < j → plan !! j = Some n' → raw_id n' ≠ Some k.
Proof.
  revert l acc. induction plan as [|node rest IH]; intros l acc Hbuild Hw.
  - cbn in Hbuild. injection Hbuild as <-. left. split; [exact Hw|].
    intros n Hin. by apply elem_of_nil in Hin.
  - cbn in Hbuild. destruct (raw_id node) as [k0|] eqn:Hk0; [|discriminate Hbuild].
    cbn in Hbuild.
    destruct (IH _ _ Hbuild Hw) as [[Hacc Hrest]|(i & n & Hi & Hn & -> & Hlast)].
    + apply lookup_insert_Some in Hacc as [[-> <-]|[Hne Hacc]].
      * right. exists 0, node. split; [reflexivity|]. split; [exact Hk0|].
        split; [by rewrite Nat.add_0_r|].
        intros j n' Hj Hn'. destruct j as [|j]; [lia|]. cbn in Hn'.
        apply Hrest. apply list_elem_of_lookup. by exists j.
      * left. split; [exact Hacc|]. intros n Hin.
        apply elem_of_cons in Hin as [->|Hin]; [|by apply Hrest].
        rewrite Hk0. by intros [= ->].
    + right. exists (S i), n. split; [exact Hi|]. split; [exact Hn|].
      split; [f_equal; lia|].
      intros j n' Hj Hn'. destruct j as [|j]; [lia|]. cbn in Hn'.
      apply (Hlast j n'); [lia | exact Hn'].
Qed.


(** The graph of a context that was built is the comprehension's result. *)
Lemma context_built ctx plan wf :
  CloudifyWorkflowContext__init__ ctx plan = Ok wf →
  build_nodes 0 plan ∅ = Ok (_nodes wf) ∧ _context wf = ctx.
Proof.
  unfold CloudifyWorkflowContext__init__. intros Hinit.
  destruct (build_nodes 0 plan ∅) as [m|e]; [|discriminate Hinit].
  cbn in Hinit. by injection Hinit as <-.
Qed.

Lemma context_lookup ctx plan wf k w :
  CloudifyWorkflowContext__init__ ctx plan = Ok wf →
  get_node wf k = Some w →
  ∃ i n, plan !! i = Some n ∧ raw_id n = Some k ∧
         w = CloudifyWorkflowNode__init__ OContext i n ∧
         ∀ j n', i < j → plan !! j = Some n' → raw_id n' ≠ Some k.
Proof.
  intros [Hbuild _]%context_built Hw. unfold get_node in Hw.
  destruct (build_nodes_lookup _ _ _ _ _ _ Hbuild Hw)
    as [[Hempty _]|(i & n & Hi & Hn & -> & Hlast)].
  - by rewrite lookup_empty in Hempty.
  - exists i, n. by repeat split.
Qed.


(** X16. Whether or not the ids of the plan are distinct, [get_node]
    returns [None] exactly for an id no node has, and otherwise the wrapper
    of the last node of the plan with that id: an earlier node with the
    same id is shadowed. *)
Theorem get_node_returns_the_last ctx plan wf k :
  CloudifyWorkflowContext__init__ ctx plan = Ok wf →
  (get_node wf k = None ↔ ∀ n, n ∈ plan → raw_id n ≠ Some k) ∧
  (∀ w, get_node wf k = Some w →
     ∃ i n, plan !! i = Some n ∧ raw_id n = Some k ∧
            w = CloudifyWorkflowNode__init__ OContext i n ∧
            ∀ j n', i < j → plan !! j = Some n' → raw_id n' ≠ Some k).
Proof.
  intros Hinit. split.
  - destruct (context_built _ _ _ Hinit) as [Hbuild _]. unfold get_node. split.
    + intros Hnone. exact (proj2 (build_nodes_None _ _ _ _ _ Hbuild Hnone)).
    + intros Hno. rewrite (build_nodes_absent _ _ _ _ k Hbuild Hno).
      apply lookup_empty.
  - intros w Hw. exact (context_lookup _ _ _ _ _ Hinit Hw).
Qed.

Lemma get_node_returns_the_last_witness :
  let plan := [sample_web; sample_db; sample_web] in
  let wf :=
    {| _context := sample_ctx;
       _nodes := {[ "web" := CloudifyWorkflowNode__init__ OContext 2 sample_web;
                    "db" := CloudifyWorkflowNode__init__ OContext 1 sample_db ]} |} in
  CloudifyWorkflowContext__init__ sample_ctx plan = Ok wf ∧
  get_node wf "web" = Some (CloudifyWorkflowNode__init__ OContext 2 sample_web) ∧
  ∃ i n, plan !! i = Some n ∧ raw_id n = Some "web" ∧
         CloudifyWorkflowNode__init__ OContext 2 sample_web
         = CloudifyWorkflowNode__init__ OContext i n ∧
         ∀ j n', i < j → plan !! j = Some n' → raw_id n' ≠ Some "web".
Proof.
  intros plan wf.
  assert (CloudifyWorkflowContext__init__ sample_ctx plan = Ok wf) as Hinit
    by (vm_compute; reflexivity).
  split; [exact Hinit|]. split; [reflexivity|].
  exact (proj2 (get_node_returns_the_last sample_ctx plan wf "web" Hinit)
           (CloudifyWorkflowNode__init__ OContext 2 sample_web) eq_refl).
Defined.

Lemma elem_of_nodes wf w :
  w ∈ nodes wf ↔ ∃ k, get_node wf k = Some w.
Proof.
  unfold nodes, get_node. rewrite list_elem_of_fmap. split.
  - intros ([k w'] & -> & Hin). exists k. by apply elem_of_map_to_list.
  - intros [k Hk]. exists (k, w). split; [reflexivity|].
    by apply elem_of_map_to_list.
Qed.

(** X17. Iterating over [nodes] yields wrappers of nodes of the plan,
    each at its position and none twice; when the ids of the plan are
    distinct, it yields the wrapper of every node of the plan exactly
    once. *)
Theorem nodes_yields_the_plan ctx plan wf :
  CloudifyWorkflowContext__init__ ctx plan = Ok wf →
  NoDup (nodes wf) ∧
  (∀ w, w ∈ nodes wf →
     ∃ i n, plan !! i = Some n ∧ w = CloudifyWorkflowNode__init__ OContext i n) ∧
  (NoDup (raw_id <$> plan) →
     nodes wf ≡ₚ imap (λ i n, CloudifyWorkflowNode__init__ OContext i n) plan).
Proof.
  intros Hinit.
  assert (∀ k w, get_node wf k = Some w →
            ∃ i n, plan !! i = Some n ∧ raw_id n = Some k ∧
                   w = CloudifyWorkflowNode__init__ OContext i n) as Hlookup.
  { intros k w Hw.
    destruct (context_lookup _ _ _ _ _ Hinit Hw) as (i & n & Hi & Hn & Hwi & _).
    by exists i, n. }
  assert (NoDup (nodes wf)) as Hnodup.
  { unfold nodes. apply NoDup_fmap_2_strong; [|apply NoDup_map_to_list].
    intros [k1 w1] [k2 w2] H1 H2 Heq. cbn in Heq. subst w2.
    apply elem_of_map_to_list in H1, H2.
    destruct (Hlookup k1 w1 H1) as (i1 & n1 & Hi1 & Hn1 & Hw1).
    destruct (Hlookup k2 w1 H2) as (i2 & n2 & Hi2 & Hn2 & Hw2).
    assert (i1 = i2) as <-.
    { rewrite Hw1 in Hw2. by apply (f_equal _node) in Hw2. }
    assert (n1 = n2) as <- by (apply (inj Some); by rewrite <- Hi1, <- Hi2).
    f_equal. apply (inj Some). by rewrite <- Hn1, <- Hn2. }
  split; [exact Hnodup|]. split.
  - intros w [k Hk]%elem_of_nodes.
    destruct (Hlookup k w Hk) as (i & n & Hi & _ & Hw). by exists i, n.
  - intros Hdup. apply NoDup_Permutation; [exact Hnodup| |].
    + apply NoDup_alt. intros i j w Hi Hj.
      rewrite list_lookup_imap in Hi, Hj.
      apply fmap_Some in Hi as (n1 & _ & ->).
      apply fmap_Some in Hj as (n2 & _ & Heq).
      by apply (f_equal _node) in Heq.
    + intros w. split.
      * intros [k Hk]%elem_of_nodes.
        destruct (Hlookup k w Hk) as (i & n & Hi & _ & ->).
        apply elem_of_lookup_imap. by exists i, n.
      * intros (i & n & -> & Hi)%elem_of_lookup_imap.
        destruct (context_built _ _ _ Hinit) as [Hbuild _].
        destruct (build_nodes_ids _ _ _ _ Hbuild n) as [k Hk].
        { apply list_elem_of_lookup. by exists i. }
        apply elem_of_nodes. exists k.
        exact (build_nodes_present 0 plan ∅ _ i n k Hdup Hbuild Hi Hk).
Qed.

Lemma nodes_yields_the_plan_witness :
  nodes sample_wf
  ≡ₚ [ CloudifyWorkflowNode__init__ OContext 0 sample_web;
       CloudifyWorkflowNode__init__ OContext 1 sample_db ].
Proof.
  assert (NoDup (raw_id <$> sample_plan)) as Hdup.
  { refine (bool_decide_unpack (NoDup (raw_id <$> sample_plan)) _).
    vm_compute. exact I. }
  exact (proj2 (proj2 (nodes_yields_the_plan sample_ctx sample_plan sample_wf
    ltac:(vm_compute; reflexivity))) Hdup).
Defined.

(** X18. In a graph built from a plan, the relationship wrappers of a
    node mirror the node's ['relationships'] in number and order (none when
    the key is absent), and [target_id] of the wrapper at a position reads
    the ['target_id'] of the relationship at that position, [None] when it
    has none. *)
Theorem relationships_mirror_the_plan ctx plan wf k w :
  CloudifyWorkflowContext__init__ ctx plan = Ok wf →
  get_node wf k = Some w →
  ∃ n, plan !! _node w = Some n ∧ raw_id n = Some k ∧
    length (relationships w) = length (default [] (raw_relationships n)) ∧
    ∀ j r, relationships w !! j = Some r →
      ∃ rr, default [] (raw_relationships n) !! j = Some rr ∧
            target_id r plan = (Ok (rel_target_id rr), plan).
Proof.
  intros Hinit Hw.
  destruct (context_lookup _ _ _ _ _ Hinit Hw) as (i & n & Hi & Hn & -> & _).
  exists n. cbn [_node CloudifyWorkflowNode__init__ relationships _relationships].
  unfold relationships. cbn [_relationships CloudifyWorkflowNode__init__].
  split; [exact Hi|]. split; [exact Hn|]. split; [apply length_imap|].
  intros j r Hr. rewrite list_lookup_imap in Hr.
  apply fmap_Some in Hr as (rr & Hrr & ->). exists rr. split; [exact Hrr|].
  unfold target_id, deref_relationship. cbn [_relationship
    CloudifyWorkflowRelationship__init__ fst snd].
  unfold bind, deref. rewrite Hi, Hrr. reflexivity.
Qed.

Lemma relationships_mirror_the_plan_witness :
  ∃ r, relationships (CloudifyWorkflowNode__init__ OContext 0 sample_web) !! 1
       = Some r ∧
       target_id r sample_plan = (Ok (Some "missing"), sample_plan).
Proof.
  destruct (relationships_mirror_the_plan sample_ctx sample_plan sample_wf "web"
    (CloudifyWorkflowNode__init__ OContext 0 sample_web)
    ltac:(vm_compute; reflexivity) eq_refl) as (n & Hn & _ & _ & Hrel).
  injection Hn as <-.
  destruct (Hrel 1 _ eq_refl) as (rr & Hrr & Htarget).
  injection Hrr as <-.
  eexists. split; [reflexivity | exact Htarget].
Defined.
